(** * pdims: the public profile page (src/pages/UserProfile.tsx)

    A shallow embedding of the URL formatter, the theme registry, the
    profile loader and the background resolution of the profile page,
    with the properties the specification states about them. *)

From stdpp Require Import base option list strings gmap.

Local Open Scope string_scope.

(** ** JavaScript strings

    A JavaScript string is a sequence of code units; it is modelled as a
    Rocq [string].  The source only tests for the ASCII prefixes
    ["http://"], ["https://"] and ["//"], compares with ASCII literals and
    concatenates, and these agree on both representations. *)

(** [s.startsWith(p)]: [p] is read off the front of [s], one code unit at
    a time. *)
Fixpoint startsWith (s p : string) {struct p} : bool :=
  match p, s with
  | EmptyString, _ => true
  | String _ _, EmptyString => false
  | String c p', String d s' => Ascii.eqb c d && startsWith s' p'
  end.

(** Truthiness of a string: every string but the empty one. *)
Definition truthy_string (s : string) : bool :=
  match s with
  | EmptyString => false
  | String _ _ => true
  end.

(** [a || b] on an optional string property: [undefined] and the empty
    string are falsy and give [b]. *)
Definition or_string (a : option string) (b : string) : string :=
  match a with
  | Some s => if truthy_string s then s else b
  | None => b
  end.

(** ** The URL formatter *)

Definition formatUrl (url : string) : string :=
  if negb (truthy_string url) then EmptyString
  else if startsWith url "http://" || startsWith url "https://" then url
  else if startsWith url "//" then "https:" +:+ url
  else "https://" +:+ url.

(** ** Data model *)

(** A value caught or returned as an error.  [profileError instanceof
    Error] tells an [Error] instance from any other object that carries a
    [message] (the query client reports failures as plain objects). *)
Inductive JsError :=
| ErrorInstance (message : string)
| ErrorObject (message : string).

Definition instanceof_Error (e : JsError) : bool :=
  match e with
  | ErrorInstance _ => true
  | ErrorObject _ => false
  end.

Definition message (e : JsError) : string :=
  match e with
  | ErrorInstance m | ErrorObject m => m
  end.

Record Profile := {
  username : string;
  full_name : string;
  bio : string;
  avatar_url : string;
  id : string;
  custom_title : option string;
}.

(** ["title" | "icon" | "both"] *)
Inductive Display := DisplayTitle | DisplayIcon | DisplayBoth.

(** [interface Link]: the optional properties are [option]s. *)
Record Link := {
  link_id : string;
  link_title : string;
  link_url : string;
  link_icon : option string;
  link_display : option Display;
  link_photo_url : option string;
}.

(** An entry of the stored [links] array.  The loader casts each entry to
    [Link] ([link as unknown as Link]) and reads it with [l?.p || default],
    so the model takes an entry at that type with every property possibly
    absent; the entry itself may be [null] ([None] in the array). *)
Record RawLink := {
  raw_id : option string;
  raw_title : option string;
  raw_url : option string;
  raw_icon : option string;
  raw_display : option Display;
  raw_photo_url : option string;
}.

(** The stored [links] column is JSON: absent ([null]/[undefined]), an
    array of entries, or some other JSON value. *)
Inductive LinksColumn :=
| LinksAbsent
| LinksArray (entries : list (option RawLink))
| LinksBool (b : bool)
| LinksNumber (n : Z)
| LinksString (s : string)
| LinksObject.

(** [Array.isArray(v)] *)
Definition isArray (v : LinksColumn) : bool :=
  match v with
  | LinksArray _ => true
  | _ => false
  end.

(** Truthiness of the [links] column. *)
Definition truthy_links (v : LinksColumn) : bool :=
  match v with
  | LinksAbsent => false
  | LinksArray _ => true
  | LinksBool b => b
  | LinksNumber n => negb (n =? 0)%Z
  | LinksString s => truthy_string s
  | LinksObject => true
  end.

(** [{ id: string; url: string }], the background-style sub-document. *)
Record BackgroundStyle := {
  bs_id : string;
  bs_url : string;
}.

(** A row of [profile_settings] as the backend returns it: any column may
    be [null]; [background_style] is the serialized sub-document. *)
Record RawSettings := {
  row_links : LinksColumn;
  row_theme_id : option string;
  row_is_dark_mode : option bool;
  row_font_style : option string;
  row_layout_type : option string;
  row_background_style : option string;
  row_favicon_url : option string;
}.

(** [interface ProfileSettings].  [background_style] is [None] when the
    property is [undefined] or [null]: both are falsy and no reader tells
    them apart. *)
Record ProfileSettings := {
  links : list Link;
  theme_id : string;
  is_dark_mode : bool;
  font_style : option string;
  layout_type : option string;
  background_style : option BackgroundStyle;
  favicon_url : option string;
}.

Record Theme := {
  theme_ident : string;
  background : string;
}.

(** Modelled from the spec: [LAYOUT_TYPES.LINKS] of [@/constants/layouts],
    which is not among the sources; the specification gives the default
    layout as ["links"]. *)
Definition LAYOUT_TYPES_LINKS : string := "links".

(** ** The theme registry *)

Definition THEMES : gmap string Theme :=
  <["elegant" := {| theme_ident := "elegant";
      background := "bg-gradient-to-b from-purple-50 to-purple-100 dark:from-purple-950 dark:to-slate-950" |}]>
  (<["nature" := {| theme_ident := "nature";
      background := "bg-gradient-to-b from-green-50 to-emerald-100 dark:from-green-950 dark:to-slate-950" |}]>
  (<["ocean" := {| theme_ident := "ocean";
      background := "bg-gradient-to-b from-blue-50 to-cyan-100 dark:from-blue-950 dark:to-slate-950" |}]>
  (<["sunset" := {| theme_ident := "sunset";
      background := "bg-gradient-to-b from-orange-50 to-red-100 dark:from-orange-950 dark:to-slate-950" |}]>
  ∅))).

(** [THEMES] is an object literal, so [THEMES[key]] also finds what the
    object inherits from [Object.prototype].  These are its property
    names; each holds a function (or, for [__proto__], the prototype
    object): a truthy value without a [background] property. *)
Definition Object_prototype : list string :=
  [ "constructor"; "__defineGetter__"; "__defineSetter__";
    "hasOwnProperty"; "__lookupGetter__"; "__lookupSetter__";
    "isPrototypeOf"; "propertyIsEnumerable"; "toString"; "valueOf";
    "__proto__"; "toLocaleString" ].

(** The value of [THEMES[key]]. *)
Inductive ThemeSlot :=
| OwnTheme (t : Theme)
| Inherited (name : string)
| NoTheme.

Definition THEMES_get (key : string) : ThemeSlot :=
  match THEMES !! key with
  | Some t => OwnTheme t
  | None => if bool_decide (key ∈ Object_prototype) then Inherited key
            else NoTheme
  end.

Definition truthy_slot (v : ThemeSlot) : bool :=
  match v with
  | OwnTheme _ | Inherited _ => true
  | NoTheme => false
  end.

(** [v.background]; [None] is [undefined]. *)
Definition slot_background (v : ThemeSlot) : option string :=
  match v with
  | OwnTheme t => Some (background t)
  | Inherited _ | NoTheme => None
  end.

(** A value interpolated in a template literal. *)
Definition interpolate (v : option string) : string :=
  match v with
  | Some s => s
  | None => "undefined"
  end.

(** ** Background resolution of the profile page *)

(** [a || b] on strings. *)
Definition or_str (a b : string) : string :=
  if truthy_string a then a else b.

(** The values the chain of [&&] behind [hasBackgroundImage] can take. *)
Inductive JsValue :=
| VUndefined
| VBool (b : bool)
| VString (s : string).

Definition truthy (v : JsValue) : bool :=
  match v with
  | VUndefined => false
  | VBool b => b
  | VString s => truthy_string s
  end.

(** [THEMES[settings?.theme_id || 'elegant'] || THEMES.elegant] *)
Definition theme (settings : ProfileSettings) : ThemeSlot :=
  let v := THEMES_get (or_str (theme_id settings) "elegant") in
  if truthy_slot v then v else THEMES_get "elegant".

(** [settings.background_style && settings.background_style.id !== "none"
     && settings.background_style.url] *)
Definition hasBackgroundImage (settings : ProfileSettings) : JsValue :=
  match background_style settings with
  | None => VUndefined
  | Some bs =>
      if negb (String.eqb (bs_id bs) "none") then VString (bs_url bs)
      else VBool false
  end.

(** The inline style object; [None] is the empty object [{}]. *)
Record Style := {
  backgroundImage : string;
  backgroundSize : string;
  backgroundPosition : string;
  backgroundRepeat : string;
}.

Definition backgroundStyle (settings : ProfileSettings) : option Style :=
  if truthy (hasBackgroundImage settings) then
    Some {| backgroundImage :=
              "url(" +:+ interpolate (bs_url <$> background_style settings)
                +:+ ")";
            backgroundSize := "cover";
            backgroundPosition := "center";
            backgroundRepeat := "no-repeat" |}
  else None.

Definition textShadowClass (settings : ProfileSettings) : string :=
  if truthy (hasBackgroundImage settings) then "text-shadow" else EmptyString.

(** The class of the page's outer element. *)
Definition outer_className (settings : ProfileSettings) : string :=
  "min-h-screen transition-all duration-500 " +:+
  (if negb (truthy (hasBackgroundImage settings))
   then interpolate (slot_background (theme settings))
   else EmptyString).

(** The class of the element laid over the background. *)
Definition overlay_className (settings : ProfileSettings) : string :=
  "min-h-screen transition-all duration-300 " +:+
  (if truthy (hasBackgroundImage settings)
   then "bg-black/40 backdrop-blur-sm" else EmptyString).

(** ** Page state and what the page renders *)

Record PageState := {
  st_profile : option Profile;
  st_settings : option ProfileSettings;
  st_loading : bool;
  st_error : option string;
}.

(** The initial state of the component's four [useState] cells. *)
Definition initial_page : PageState :=
  {| st_profile := None; st_settings := None;
     st_loading := true; st_error := None |}.

Record ProfileView := {
  view_className : string;
  view_style : option Style;
  view_overlay : string;
  view_textShadowClass : string;
  view_profile : Profile;
  view_layoutType : string;
  view_links : list Link;
}.

Inductive View :=
| LoadingView
| ErrorView (shown : string)
| ProfilePage (v : ProfileView).

(** [error || "This digital identity does not exist"] *)
Definition error_text (e : option string) : string :=
  match e with
  | Some m => or_str m "This digital identity does not exist"
  | None => "This digital identity does not exist"
  end.

Definition truthy_opt_string (e : option string) : bool :=
  match e with
  | Some m => truthy_string m
  | None => false
  end.

(** The component's return value, from the state of the four cells. *)
Definition render (st : PageState) : View :=
  if st_loading st then LoadingView
  else
    match truthy_opt_string (st_error st), st_profile st, st_settings st with
    | false, Some profile, Some settings =>
        ProfilePage
          {| view_className := outer_className settings;
             view_style := backgroundStyle settings;
             view_overlay := overlay_className settings;
             view_textShadowClass := textShadowClass settings;
             view_profile := profile;
             view_layoutType :=
               match layout_type settings with
               | Some l => or_str l LAYOUT_TYPES_LINKS
               | None => LAYOUT_TYPES_LINKS
               end;
             view_links := links settings |}
    | _, _, _ => ErrorView (error_text (st_error st))
    end.

(** ** Effects of the loader *)

Inductive ConsoleLevel := LevelLog | LevelError.

(** The second argument of a [console] call. *)
Inductive ConsoleArg :=
| ArgString (s : option string)
| ArgError (e : JsError)
| ArgProfileResult (profile : option Profile) (profileError : option JsError)
| ArgSettingsResult (settings : option RawSettings)
    (settingsError : option JsError).

Record ConsoleEntry := {
  level : ConsoleLevel;
  text : string;
  arg : option ConsoleArg;
}.

Record Toast := {
  title : string;
  description : string;
  variant : string;
}.

(** Everything the loader reads or writes: the component's state cells,
    the console, the toasts fired, the navigations requested, the [dark]
    class and the [--font-current] property of the document root, and the
    number of calls made to [crypto.randomUUID] so far.  Lists grow at the
    end, in the order of the calls. *)
Record World := {
  page : PageState;
  console : list ConsoleEntry;
  toasts : list Toast;
  navigations : list string;
  root_dark : bool;
  root_font : option string;
  uuid_calls : nat;
}.

Definition with_page (f : PageState -> PageState) (w : World) : World :=
  {| page := f (page w); console := console w; toasts := toasts w;
     navigations := navigations w; root_dark := root_dark w;
     root_font := root_font w; uuid_calls := uuid_calls w |}.

(** How a block of statements ends: normally with a value, by [return],
    or by a thrown value. *)
Inductive Completion (A : Type) :=
| Normal (a : A)
| Returned
| Thrown (e : JsError).
Arguments Normal {A} a.
Arguments Returned {A}.
Arguments Thrown {A} e.

Definition Eff (A : Type) : Type := World -> Completion A * World.

#[global] Instance Eff_ret : MRet Eff := fun A a w => (Normal a, w).

#[global] Instance Eff_bind : MBind Eff := fun A B k m w =>
  match m w with
  | (Normal a, w') => k a w'
  | (Returned, w') => (Returned, w')
  | (Thrown e, w') => (Thrown e, w')
  end.

Definition modify (f : World -> World) : Eff unit :=
  fun w => (Normal tt, f w).

Definition return_ {A} : Eff A := fun w => (Returned, w).
Definition throw {A} (e : JsError) : Eff A := fun w => (Thrown e, w).

Definition setProfile (p : Profile) : Eff unit :=
  modify (with_page (fun st =>
    {| st_profile := Some p; st_settings := st_settings st;
       st_loading := st_loading st; st_error := st_error st |})).

Definition setSettings (s : ProfileSettings) : Eff unit :=
  modify (with_page (fun st =>
    {| st_profile := st_profile st; st_settings := Some s;
       st_loading := st_loading st; st_error := st_error st |})).

Definition setLoading (b : bool) : Eff unit :=
  modify (with_page (fun st =>
    {| st_profile := st_profile st; st_settings := st_settings st;
       st_loading := b; st_error := st_error st |})).

Definition setError (e : option string) : Eff unit :=
  modify (with_page (fun st =>
    {| st_profile := st_profile st; st_settings := st_settings st;
       st_loading := st_loading st; st_error := e |})).

Definition console_emit (e : ConsoleEntry) : Eff unit :=
  modify (fun w =>
    {| page := page w; console := console w ++ [e]; toasts := toasts w;
       navigations := navigations w; root_dark := root_dark w;
       root_font := root_font w; uuid_calls := uuid_calls w |}).

Definition console_log (t : string) (a : option ConsoleArg) : Eff unit :=
  console_emit {| level := LevelLog; text := t; arg := a |}.

Definition console_error (t : string) (a : option ConsoleArg) : Eff unit :=
  console_emit {| level := LevelError; text := t; arg := a |}.

Definition toast (t : Toast) : Eff unit :=
  modify (fun w =>
    {| page := page w; console := console w; toasts := toasts w ++ [t];
       navigations := navigations w; root_dark := root_dark w;
       root_font := root_font w; uuid_calls := uuid_calls w |}).

Definition navigate (path : string) : Eff unit :=
  modify (fun w =>
    {| page := page w; console := console w; toasts := toasts w;
       navigations := navigations w ++ [path]; root_dark := root_dark w;
       root_font := root_font w; uuid_calls := uuid_calls w |}).

(** [document.documentElement.classList.add('dark')] and [.remove('dark')] *)
Definition classList_dark (b : bool) : Eff unit :=
  modify (fun w =>
    {| page := page w; console := console w; toasts := toasts w;
       navigations := navigations w; root_dark := b;
       root_font := root_font w; uuid_calls := uuid_calls w |}).

(** [document.documentElement.style.setProperty('--font-current', v)] *)
Definition style_setFont (v : string) : Eff unit :=
  modify (fun w =>
    {| page := page w; console := console w; toasts := toasts w;
       navigations := navigations w; root_dark := root_dark w;
       root_font := Some v; uuid_calls := uuid_calls w |}).

(** [try { body } catch (e) { handler e }] *)
Definition try_catch {A} (body : Eff A) (handler : JsError -> Eff A) : Eff A :=
  fun w =>
    match body w with
    | (Thrown e, w') => handler e w'
    | r => r
    end.

(** [try { body } finally { final }], for a [final] that completes
    normally: the completion of [body] is kept. *)
Definition try_finally {A} (body : Eff A) (final : Eff unit) : Eff A :=
  fun w =>
    let (r, w') := body w in
    match final w' with
    | (Normal _, w'') => (r, w'')
    | (Returned, w'') => (Returned, w'')
    | (Thrown e, w'') => (Thrown e, w'')
    end.

(** The world an [async] function leaves behind once its promise
    settles. *)
Definition settle (body : Eff unit) (w : World) : World := snd (body w).

(** The answer of a backend query [{ data, error }], or the rejection of
    the awaited promise. *)
Inductive Response (A : Type) :=
| Resolved (data : option A) (error : option JsError)
| Rejected (reason : JsError).
Arguments Resolved {A} data error.
Arguments Rejected {A} reason.

Definition await {A} (r : Response A) : Eff (option A * option JsError) :=
  match r with
  | Resolved d e => mret (d, e)
  | Rejected reason => throw reason
  end.

(** The outcome of [JSON.parse] on the serialized sub-document. *)
Inductive ParseResult :=
| Parsed (v : option BackgroundStyle)
| SyntaxError (e : JsError).

Fixpoint mapM {A B} (f : A -> Eff B) (l : list A) : Eff (list B) :=
  match l with
  | [] => mret []
  | x :: l' => y ← f x; ys ← mapM f l'; mret (y :: ys)
  end.

(** ** The profile loader *)

Section Loader.

(** The host and the backend the loader runs against:
    [JSON.parse] on a serialized sub-document; the value the [n]-th call
    of [crypto.randomUUID()] returns; the answer of the query on
    [profiles] by user name and of the query on [profile_settings] by
    profile id. *)
Variable JSON_parse : string -> ParseResult.
Variable uuid : nat -> string.
Variable profiles : string -> Response Profile.
Variable profile_settings : string -> Response RawSettings.

(** [crypto.randomUUID()] *)
Definition randomUUID : Eff string :=
  fun w =>
    (Normal (uuid (uuid_calls w)),
     {| page := page w; console := console w; toasts := toasts w;
        navigations := navigations w; root_dark := root_dark w;
        root_font := root_font w; uuid_calls := S (uuid_calls w) |}).

(** [JSON.parse(s)], which throws on a syntax error. *)
Definition parse (s : string) : Eff (option BackgroundStyle) :=
  match JSON_parse s with
  | Parsed v => mret v
  | SyntaxError e => throw e
  end.

(** The callback of [settings.links.map]: one entry to one [Link].
    [l?.p] is [None] when the entry is [null] or lacks [p]; a UUID is
    drawn only when [l?.id] is falsy. *)
Definition processLink (link : option RawLink) : Eff Link :=
  let l := link in
  id ← match l ≫= raw_id with
       | Some i => if truthy_string i then mret i else randomUUID
       | None => randomUUID
       end;
  mret {| link_id := id;
          link_title := or_string (l ≫= raw_title) EmptyString;
          link_url := formatUrl (or_string (l ≫= raw_url) EmptyString);
          link_icon := Some (or_string (l ≫= raw_icon) "link");
          link_display := Some (default DisplayBoth (l ≫= raw_display));
          link_photo_url :=
            Some (or_string (l ≫= raw_photo_url) EmptyString) |}.

(** [processedLinks]: empty unless [settings.links] is an array. *)
Definition processedLinks (settings : RawSettings) : Eff (list Link) :=
  if truthy_links (row_links settings) && isArray (row_links settings)
  then match row_links settings with
       | LinksArray entries => mapM processLink entries
       | _ => mret []
       end
  else mret [].

(** The object literal bound to [typedSettings]. *)
Definition typedSettings (settings : RawSettings) (processed : list Link)
  : ProfileSettings :=
  {| links := processed;
     theme_id := or_string (row_theme_id settings) "elegant";
     is_dark_mode := default false (row_is_dark_mode settings);
     font_style := Some (or_string (row_font_style settings) "sans");
     layout_type :=
       Some (or_string (row_layout_type settings) LAYOUT_TYPES_LINKS);
     background_style := None;
     favicon_url := row_favicon_url settings |}.

(** [typedSettings.background_style = v] *)
Definition set_background_style (t : ProfileSettings)
    (v : option BackgroundStyle) : ProfileSettings :=
  {| links := links t; theme_id := theme_id t;
     is_dark_mode := is_dark_mode t; font_style := font_style t;
     layout_type := layout_type t; background_style := v;
     favicon_url := favicon_url t |}.

(** The statement [if (settings.background_style) { try { ... } catch
    (e) { console.error(...) } }], returning [typedSettings] as the
    statement leaves it. *)
Definition parse_background_style (settings : RawSettings)
    (t : ProfileSettings) : Eff ProfileSettings :=
  match row_background_style settings with
  | Some s =>
      if truthy_string s then
        try_catch
          (v ← parse s; mret (set_background_style t v))
          (fun e =>
             console_error "Failed to parse background style:"
               (Some (ArgError e));;
             mret t)
      else mret t
  | None => mret t
  end.

(** The part of the [try] block that follows a settings row. *)
Definition load_settings (settings : RawSettings) : Eff unit :=
  processed ← processedLinks settings;
  t ← parse_background_style settings (typedSettings settings processed);
  setSettings t;;
  (if default false (row_is_dark_mode settings)
   then classList_dark true else classList_dark false);;
  style_setFont
    ("var(--font-" +:+ or_string (font_style t) "sans" +:+ ")").

(** The [try] block of [loadProfile]. *)
Definition load_body (username : option string) : Eff unit :=
  setLoading true;;
  setError None;;
  if negb (truthy_opt_string username) then
    console_error "No username provided in URL" None;;
    setError (Some "Username is required");;
    navigate "/404";;
    return_
  else
    console_log "Fetching profile for username:"
      (Some (ArgString username));;
    '(profile, profileError) ← await (profiles (default EmptyString username));
    console_log "Profile fetch result:"
      (Some (ArgProfileResult profile profileError));;
    match profileError with
    | Some e =>
        console_error "Profile error:" (Some (ArgError e));;
        setError (Some "Failed to load profile");;
        toast {| title := "Error";
                 description := "Failed to load profile: " +:+
                   (if instanceof_Error e then message e
                    else "Unknown error");
                 variant := "destructive" |};;
        return_
    | None =>
    match profile with
    | None =>
        console_log "No profile found for username:"
          (Some (ArgString username));;
        setError (Some "Profile not found");;
        toast {| title := "Not Found";
                 description := "This digital identity does not exist";
                 variant := "destructive" |};;
        return_
    | Some profile =>
        setProfile profile;;
        '(settings, settingsError) ← await (profile_settings (id profile));
        console_log "Settings fetch result:"
          (Some (ArgSettingsResult settings settingsError));;
        match settingsError with
        | Some e =>
            console_error "Settings error:" (Some (ArgError e));;
            setError (Some "Error loading profile settings");;
            toast {| title := "Error";
                     description := "Failed to load profile settings";
                     variant := "destructive" |};;
            return_
        | None =>
        match settings with
        | None =>
            console_error "No settings found for profile:"
              (Some (ArgString (Some (id profile))));;
            setError (Some "Profile settings not found");;
            return_
        | Some settings => load_settings settings
        end end
    end end.

(** [loadProfile]: the [try] block, its [catch] and its [finally]. *)
Definition loadProfile (username : option string) : Eff unit :=
  try_finally
    (try_catch (load_body username)
       (fun error =>
          console_error "Error loading profile:" (Some (ArgError error));;
          setError (Some (message error));;
          toast {| title := "Error";
                   description := "Failed to load digital identity";
                   variant := "destructive" |}))
    (setLoading false).

(** The world after the effect has run [loadProfile()] to the end. *)
Definition load (username : option string) (w : World) : World :=
  settle (loadProfile username) w.

End Loader.

(** ** Vocabulary of the statements *)

(** The background-style override counts as present: the sub-document is
    there, its id is not the sentinel ["none"], and its url is not
    empty. *)
Definition override_present (settings : ProfileSettings) : Prop :=
  exists bs, background_style settings = Some bs /\
             bs_id bs <> "none" /\ bs_url bs <> EmptyString.

(** The page shows the image: an inline background image, the dimming and
    blurring overlay, and the text-shadow flag. *)
Definition shows_image (settings : ProfileSettings) : Prop :=
  is_Some (backgroundStyle settings) /\
  overlay_className settings =
    "min-h-screen transition-all duration-300 bg-black/40 backdrop-blur-sm" /\
  textShadowClass settings = "text-shadow".

(** An entry for which the loader draws a UUID: [l?.id] is falsy. *)
Definition id_missing (link : option RawLink) : bool :=
  negb (truthy_opt_string (link ≫= raw_id)).

(** The number of UUIDs drawn for a run of entries. *)
Fixpoint draws (entries : list (option RawLink)) : nat :=
  match entries with
  | [] => 0
  | l :: rest => (if id_missing l then 1 else 0) + draws rest
  end.

(** The world after [n] more calls of [crypto.randomUUID]. *)
Definition after_draws (n : nat) (w : World) : World :=
  {| page := page w; console := console w; toasts := toasts w;
     navigations := navigations w; root_dark := root_dark w;
     root_font := root_font w; uuid_calls := n + uuid_calls w |}.

(** The world after the console has received [es]. *)
Definition after_logs (es : list ConsoleEntry) (w : World) : World :=
  {| page := page w; console := console w ++ es; toasts := toasts w;
     navigations := navigations w; root_dark := root_dark w;
     root_font := root_font w; uuid_calls := uuid_calls w |}.

(** [s] has [sub] as a substring. *)
Fixpoint contains (s sub : string) : bool :=
  startsWith s sub ||
  match s with
  | EmptyString => false
  | String _ s' => contains s' sub
  end.

(** ** Sample host, backend and rows, for the examples *)

Module Sample.

(** The double quote, and a JSON string literal. *)
Definition dq : string := String (Ascii.ascii_of_nat 34) EmptyString.
Definition json_string (s : string) : string := dq +:+ s +:+ dq.

(** The serialized sub-document [{ id, url }]. *)
Definition json_background (i u : string) : string :=
  "{" +:+ json_string "id" +:+ ":" +:+ json_string i +:+ "," +:+
  json_string "url" +:+ ":" +:+ json_string u +:+ "}".

(** [JSON.parse] on the documents of the examples; every other text of
    the examples is malformed, like the empty text. *)
Definition JSON_parse (s : string) : ParseResult :=
  if String.eqb s (json_background "none" EmptyString) then
    Parsed (Some {| bs_id := "none"; bs_url := EmptyString |})
  else if String.eqb s (json_background "custom" "https://img") then
    Parsed (Some {| bs_id := "custom"; bs_url := "https://img" |})
  else if String.eqb s "null" then Parsed None
  else SyntaxError (ErrorInstance "Unexpected token in JSON").

(** A generator that never repeats a value. *)
Fixpoint uuid (n : nat) : string :=
  match n with
  | 0 => "uuid-"
  | S k => uuid k +:+ "i"
  end.

Definition alice : Profile :=
  {| username := "alice"; full_name := "Alice"; bio := "hello";
     avatar_url := "https://img/alice.png"; id := "p-1";
     custom_title := None |}.

(** The raw link [{ url: "example.com" }]. *)
Definition example_com : RawLink :=
  {| raw_id := None; raw_title := None; raw_url := Some "example.com";
     raw_icon := None; raw_display := None; raw_photo_url := None |}.

(** A settings row with only [links: []] set. *)
Definition only_links : RawSettings :=
  {| row_links := LinksArray []; row_theme_id := None;
     row_is_dark_mode := None; row_font_style := None;
     row_layout_type := None; row_background_style := None;
     row_favicon_url := None |}.

(** A settings row whose sub-document is [text]. *)
Definition row_with_background (text : string) : RawSettings :=
  {| row_links := LinksArray [Some example_com; None];
     row_theme_id := Some "ocean";
     row_is_dark_mode := Some true; row_font_style := None;
     row_layout_type := Some "bento";
     row_background_style := Some text;
     row_favicon_url := None |}.

Definition settings_of (bg : option BackgroundStyle) (t : string)
  : ProfileSettings :=
  {| links := []; theme_id := t; is_dark_mode := false;
     font_style := Some "sans"; layout_type := Some "links";
     background_style := bg; favicon_url := None |}.

(** The world when the page mounts. *)
Definition fresh : World :=
  {| page := initial_page; console := []; toasts := [];
     navigations := []; root_dark := false; root_font := None;
     uuid_calls := 0 |}.

(** A backend that knows [alice] and answers [r] for her settings. *)
Definition profiles (u : string) : Response Profile :=
  if String.eqb u "alice" then Resolved (Some alice) None
  else Resolved None None.

Definition settings_answer (r : Response RawSettings) (i : string)
  : Response RawSettings :=
  if String.eqb i "p-1" then r else Resolved None None.

(** A backend whose profile query fails with [e]. *)
Definition failing (e : JsError) (u : string) : Response Profile :=
  Resolved None (Some e).

End Sample.

(** ** The rest of the component: metadata, edit button, unmount *)

(** The title handed to [usePageMetadata]:
    [profile?.custom_title || profile?.full_name ||
     `${profile?.username}'s Digital Identity`]. *)
Definition pageTitle (profile : option Profile) : string :=
  or_string (profile ≫= custom_title)
    (or_string (full_name <$> profile)
       (interpolate (username <$> profile) +:+ "'s Digital Identity")).

(** The object handed to [usePageMetadata]. *)
Record PageMetadata := {
  meta_title : string;
  meta_faviconUrl : option string;
}.

Definition pageMetadata (st : PageState) : PageMetadata :=
  {| meta_title := pageTitle (st_profile st);
     meta_faviconUrl := st_settings st ≫= favicon_url |}.

(** [handleEditProfile]: go to the editor of the loaded profile, or
    report that there is no user name to go to. *)
Definition handleEditProfile (st : PageState) : Eff unit :=
  if truthy_opt_string (username <$> st_profile st) then
    navigate ("/edit-profile/" +:+ interpolate (username <$> st_profile st))
  else
    toast {| title := "Error";
             description := "Cannot edit profile: username not found";
             variant := "destructive" |}.

(** [document.documentElement.style.removeProperty('--font-current')] *)
Definition style_removeFont : Eff unit :=
  modify (fun w =>
    {| page := page w; console := console w; toasts := toasts w;
       navigations := navigations w; root_dark := root_dark w;
       root_font := None; uuid_calls := uuid_calls w |}).

(** The function the effect returns, run when the page unmounts or the
    user name changes. *)
Definition cleanup : Eff unit :=
  classList_dark false;;
  style_removeFont.

Definition unmount (w : World) : World := settle cleanup w.

(** The two queries gave a profile and its settings row. *)
Definition found (profiles : string -> Response Profile)
    (profile_settings : string -> Response RawSettings)
    (username : option string) (p : Profile) (row : RawSettings) : Prop :=
  exists u, username = Some u /\ truthy_string u = true /\
    profiles u = Resolved (Some p) None /\
    profile_settings (id p) = Resolved (Some row) None.

(** The world [w] with the dark class and the font property of [d]. *)
Definition with_document (dark : bool) (font : option string) (w : World)
  : World :=
  {| page := page w; console := console w; toasts := toasts w;
     navigations := navigations w; root_dark := dark;
     root_font := font; uuid_calls := uuid_calls w |}.

(** ** Facts about prefixes *)

Section Prefix.

Lemma startsWith_app (p r : string) : startsWith (p +:+ r) p = true.
Proof.
  induction p as [|c p IH]; simpl; [done|].
  by rewrite Ascii.eqb_refl.
Qed.

Lemma startsWith_split (p s : string) :
  startsWith s p = true -> exists r, s = p +:+ r.
Proof.
  revert s; induction p as [|c p IH]; intros s H.
  - by exists s.
  - destruct s as [|d s]; simpl in H; [done|].
    apply andb_prop in H as [Hc Hs].
    apply Ascii.eqb_eq in Hc as ->.
    destruct (IH _ Hs) as [r ->]. by exists r.
Qed.

Lemma startsWith_iff (s p : string) :
  startsWith s p = true <-> exists r, s = p +:+ r.
Proof.
  split; [apply startsWith_split|]. intros [r ->]. apply startsWith_app.
Qed.

Lemma startsWith_false (s p : string) :
  (~ exists r, s = p +:+ r) -> startsWith s p = false.
Proof.
  intros H. destruct (startsWith s p) eqn:E; [|done].
  exfalso. apply H. by apply startsWith_iff.
Qed.

End Prefix.

(** ** The URL formatter: contract *)

(** C2. [formatUrl] maps the empty string to the empty string, returns an
    input that begins with ["http://"] or ["https://"] unchanged, prefixes
    an input that begins with ["//"] with ["https:"], and prefixes every
    other non-empty input with ["https://"]. *)
Theorem formatUrl_contract (s : string) :
  (s = EmptyString -> formatUrl s = EmptyString) /\
  ((exists r, s = "http://" +:+ r) \/ (exists r, s = "https://" +:+ r) ->
   formatUrl s = s) /\
  ((exists r, s = "//" +:+ r) -> formatUrl s = "https:" +:+ s) /\
  (s <> EmptyString ->
   (~ exists r, s = "http://" +:+ r) ->
   (~ exists r, s = "https://" +:+ r) ->
   (~ exists r, s = "//" +:+ r) ->
   formatUrl s = "https://" +:+ s).
Proof.
  repeat split.
  - by intros ->.
  - intros [[r ->]|[r ->]]; reflexivity.
  - intros [r ->]. destruct r as [|c r]; [reflexivity|].
    unfold formatUrl. simpl. reflexivity.
  - intros Hne H1 H2 H3. unfold formatUrl.
    destruct s as [|c s]; [done|]. simpl truthy_string. simpl negb.
    cbv iota.
    rewrite (startsWith_false _ _ H1), (startsWith_false _ _ H2),
      (startsWith_false _ _ H3). reflexivity.
Qed.

(** C3. [formatUrl] is idempotent. *)
Theorem formatUrl_idempotent (s : string) :
  formatUrl (formatUrl s) = formatUrl s.
Proof.
  destruct s as [|c s]; [reflexivity|].
  set (u := String c s).
  assert (Hu : formatUrl u =
    if startsWith u "http://" || startsWith u "https://" then u
    else if startsWith u "//" then "https:" +:+ u else "https://" +:+ u)
    by reflexivity.
  destruct (startsWith u "http://" || startsWith u "https://") eqn:Hp.
  - rewrite Hu. unfold formatUrl. subst u. simpl truthy_string.
    cbv beta iota delta [negb]. by rewrite Hp.
  - destruct (startsWith u "//") eqn:Hd; rewrite Hu; [|reflexivity].
    apply startsWith_iff in Hd as [r ->]. reflexivity.
Qed.

Lemma formatUrl_contract_witness :
  formatUrl "example.com" = "https://example.com" /\
  formatUrl "//cdn.example.com" = "https://cdn.example.com" /\
  formatUrl "http://x" = "http://x" /\
  formatUrl EmptyString = EmptyString.
Proof.
  destruct (formatUrl_contract "example.com") as (_ & _ & _ & Hplain).
  destruct (formatUrl_contract "//cdn.example.com") as (_ & _ & Hrel & _).
  destruct (formatUrl_contract "http://x") as (_ & Habs & _ & _).
  destruct (formatUrl_contract EmptyString) as (Hempty & _ & _ & _).
  split; [|split; [|split]].
  - apply Hplain; [discriminate | | | ]; intros [r Hr]; discriminate Hr.
  - apply Hrel. by exists "cdn.example.com".
  - apply Habs. left. by exists "x".
  - by apply Hempty.
Defined.

(** ** Background resolution *)

Section Background.

Lemma truthy_string_true (s : string) :
  truthy_string s = true <-> s <> EmptyString.
Proof. destruct s; simpl; split; intros; congruence. Qed.

Lemma eqb_none (s : string) : String.eqb s "none" = false <-> s <> "none".
Proof. apply String.eqb_neq. Qed.

(** [hasBackgroundImage] is truthy exactly when the override is present. *)
Lemma hasBackgroundImage_truthy (settings : ProfileSettings) :
  truthy (hasBackgroundImage settings) = true <-> override_present settings.
Proof.
  unfold hasBackgroundImage, override_present.
  destruct (background_style settings) as [bs|]; simpl.
  - destruct (String.eqb (bs_id bs) "none") eqn:E; simpl.
    + apply String.eqb_eq in E. split; [done|].
      intros (bs' & [= <-] & Hid & _). done.
    + apply eqb_none in E. rewrite truthy_string_true. split.
      * intros Hu. by exists bs.
      * by intros (bs' & [= <-] & _ & Hu).
  - split; [done|]. by intros (bs & ? & _).
Qed.

Lemma hasBackgroundImage_falsy (settings : ProfileSettings) :
  truthy (hasBackgroundImage settings) = false <->
  ~ override_present settings.
Proof.
  rewrite <- hasBackgroundImage_truthy.
  destruct (truthy (hasBackgroundImage settings)); split; congruence.
Qed.

End Background.

(** The precedence between override and theme.  The page shows the
    background image, with the dimming and blurring overlay and the
    text-shadow flag, if and only if the background-style override is
    there, its id is not ["none"] and its url is not empty; in that case
    the image is the override's url.  In every other case the page
    carries no image, no overlay and no text-shadow flag, and the class
    of its outer element ends with the background of the theme resolved
    for the settings' theme id, which is the registry's entry for that id
    when the registry has one. *)
Theorem background_precedence (settings : ProfileSettings) :
  (shows_image settings <-> override_present settings) /\
  (forall bs, background_style settings = Some bs ->
     override_present settings ->
     backgroundStyle settings =
       Some {| backgroundImage := "url(" +:+ bs_url bs +:+ ")";
               backgroundSize := "cover";
               backgroundPosition := "center";
               backgroundRepeat := "no-repeat" |} /\
     outer_className settings =
       "min-h-screen transition-all duration-500 ") /\
  (~ override_present settings ->
     backgroundStyle settings = None /\
     overlay_className settings =
       "min-h-screen transition-all duration-300 " /\
     textShadowClass settings = EmptyString /\
     outer_className settings =
       "min-h-screen transition-all duration-500 " +:+
       interpolate (slot_background (theme settings)) /\
     (forall t, THEMES !! theme_id settings = Some t ->
        outer_className settings =
          "min-h-screen transition-all duration-500 " +:+ background t)).
Proof.
  split; [|split].
  - split.
    + intros (Hstyle & _ & _). apply hasBackgroundImage_truthy.
      unfold backgroundStyle in Hstyle.
      destruct (truthy (hasBackgroundImage settings)); [done|].
      by destruct Hstyle.
    + intros H. apply hasBackgroundImage_truthy in H.
      unfold shows_image, backgroundStyle, overlay_className,
        textShadowClass. rewrite H. by repeat split.
  - intros bs Hbs H. apply hasBackgroundImage_truthy in H.
    unfold backgroundStyle, outer_className. rewrite H, Hbs. done.
  - intros H. apply hasBackgroundImage_falsy in H.
    unfold backgroundStyle, overlay_className, textShadowClass,
      outer_className. rewrite H. simpl. repeat split.
    intros t Ht. unfold theme, or_str.
    destruct (truthy_string (theme_id settings)) eqn:E.
    + unfold THEMES_get. rewrite Ht. done.
    + destruct (theme_id settings); [|done]. by vm_compute in Ht.
Qed.

Lemma background_precedence_witness :
  let none := Sample.settings_of
                (Some {| bs_id := "none"; bs_url := EmptyString |}) "ocean" in
  let custom := Sample.settings_of
                  (Some {| bs_id := "custom"; bs_url := "https://img" |})
                  "ocean" in
  (backgroundStyle none = None /\
   overlay_className none = "min-h-screen transition-all duration-300 " /\
   textShadowClass none = EmptyString /\
   outer_className none =
     "min-h-screen transition-all duration-500 bg-gradient-to-b from-blue-50 to-cyan-100 dark:from-blue-950 dark:to-slate-950") /\
  shows_image custom /\
  (backgroundImage <$> backgroundStyle custom) = Some "url(https://img)".
Proof.
  intros none custom.
  destruct (background_precedence none) as (_ & _ & Hnone).
  destruct (background_precedence custom) as (Hiff & Himg & _).
  assert (Hn : ~ override_present none).
  { intros (bs & [= <-] & Hid & _). by apply Hid. }
  assert (Hc : override_present custom).
  { eexists. split; [reflexivity|]. by split. }
  split; [|split].
  - destruct (Hnone Hn) as (H1 & H2 & H3 & _ & H5).
    split; [exact H1|]. split; [exact H2|]. split; [exact H3|].
    assert (Ht : THEMES !! theme_id none = Some
      {| theme_ident := "ocean";
         background := "bg-gradient-to-b from-blue-50 to-cyan-100 dark:from-blue-950 dark:to-slate-950" |})
      by (vm_compute; reflexivity).
    rewrite (H5 _ Ht). reflexivity.
  - by apply Hiff.
  - destruct (Himg _ eq_refl Hc) as [-> _]. reflexivity.
Defined.

(** ** Theme resolution *)

Section Themes.

Lemma THEMES_elegant :
  THEMES_get "elegant" =
  OwnTheme {| theme_ident := "elegant";
              background := "bg-gradient-to-b from-purple-50 to-purple-100 dark:from-purple-950 dark:to-slate-950" |}.
Proof. by vm_compute. Qed.

(** Each built-in id resolves to its own entry. *)
Lemma theme_builtin (settings : ProfileSettings) (t : Theme) :
  THEMES !! theme_id settings = Some t -> theme settings = OwnTheme t.
Proof.
  intros Ht. unfold theme, or_str.
  destruct (truthy_string (theme_id settings)) eqn:E.
  - unfold THEMES_get. by rewrite Ht.
  - destruct (theme_id settings); [|done]. by vm_compute in Ht.
Qed.

(** An empty id, and an id that names neither an entry of the registry
    nor a property of [Object.prototype], resolve to the ["elegant"]
    entry. *)
Lemma theme_fallback (settings : ProfileSettings) :
  THEMES !! theme_id settings = None ->
  theme_id settings ∉ Object_prototype ->
  theme settings = THEMES_get "elegant".
Proof.
  intros Hown Hproto. unfold theme, or_str.
  destruct (truthy_string (theme_id settings)) eqn:E.
  - unfold THEMES_get at 1 2. rewrite Hown.
    rewrite bool_decide_eq_false_2 by done. reflexivity.
  - reflexivity.
Qed.

End Themes.

(** C6 (where the code departs from the claim).  The id ["constructor"] is
    not an entry of the registry, yet [THEMES["constructor"]] is the
    truthy function the object inherits, so the fallback to
    [THEMES.elegant] is not taken: the resolved theme has no background
    and the outer element gets the class text ["undefined"]. *)
Theorem theme_inherited_key_not_elegant :
  let settings := Sample.settings_of None "constructor" in
  THEMES !! theme_id settings = None /\
  theme settings = Inherited "constructor" /\
  slot_background (theme settings) = None /\
  slot_background (theme settings) <>
    slot_background (THEMES_get "elegant") /\
  outer_className settings =
    "min-h-screen transition-all duration-500 undefined".
Proof.
  assert (H : theme (Sample.settings_of None "constructor") =
              Inherited "constructor") by (by vm_compute).
  simpl. split; [by vm_compute|]. split; [exact H|].
  unfold outer_className. rewrite H, THEMES_elegant. simpl.
  by repeat split.
Qed.

Lemma THEMES_entries (k : string) (t : Theme) :
  THEMES !! k = Some t ->
  background t = "bg-gradient-to-b from-purple-50 to-purple-100 dark:from-purple-950 dark:to-slate-950" \/
  background t = "bg-gradient-to-b from-green-50 to-emerald-100 dark:from-green-950 dark:to-slate-950" \/
  background t = "bg-gradient-to-b from-blue-50 to-cyan-100 dark:from-blue-950 dark:to-slate-950" \/
  background t = "bg-gradient-to-b from-orange-50 to-red-100 dark:from-orange-950 dark:to-slate-950".
Proof.
  unfold THEMES. intros H.
  apply lookup_insert_Some in H as [[_ <-]|[_ H]]; [by left|].
  apply lookup_insert_Some in H as [[_ <-]|[_ H]]; [right; by left|].
  apply lookup_insert_Some in H as [[_ <-]|[_ H]];
    [right; right; by left|].
  apply lookup_insert_Some in H as [[_ <-]|[_ H]];
    [right; right; by right|].
  by rewrite lookup_empty in H.
Qed.

(** C1 (where the code departs from the claim).  Settings without a
    background override and with the theme id ["constructor"], as the
    loader stores them from a row with that theme id, fall under the
    claim's every other case: the page carries no image, no overlay and
    no text-shadow flag.  Yet the class of the outer element ends with
    the text ["undefined"], which is the background of no entry of the
    theme registry, the ["elegant"] entry included. *)
Theorem background_inherited_key_not_registry :
  let row := {| row_links := LinksAbsent;
                row_theme_id := Some "constructor";
                row_is_dark_mode := None; row_font_style := None;
                row_layout_type := None; row_background_style := None;
                row_favicon_url := None |} in
  let w' := load Sample.JSON_parse Sample.uuid Sample.profiles
              (Sample.settings_answer (Resolved (Some row) None))
              (Some "alice") Sample.fresh in
  exists settings v,
    st_settings (page w') = Some settings /\
    theme_id settings = "constructor" /\
    ~ override_present settings /\
    render (page w') = ProfilePage v /\
    view_style v = None /\
    view_overlay v = "min-h-screen transition-all duration-300 " /\
    view_textShadowClass v = EmptyString /\
    view_className v =
      "min-h-screen transition-all duration-500 undefined" /\
    forall k t, THEMES !! k = Some t ->
      view_className v <>
        "min-h-screen transition-all duration-500 " +:+ background t.
Proof.
  intros row w'.
  eexists _, _. split; [by vm_compute|]. split; [reflexivity|].
  split; [by intros (bs & [=] & _)|].
  split; [by vm_compute|].
  cbn [view_style view_overlay view_textShadowClass view_className].
  repeat (split; [reflexivity|]).
  intros k t Ht.
  destruct (THEMES_entries k t Ht) as [-> | [-> | [-> | ->]]];
    discriminate.
Qed.

(** ** Link normalization *)

Section Links.

Variable uuid : nat -> string.

Lemma after_draws_0 (w : World) : after_draws 0 w = w.
Proof. by destruct w. Qed.

Lemma after_draws_add (n m : nat) (w : World) :
  after_draws n (after_draws m w) = after_draws (m + n) w.
Proof. unfold after_draws; simpl. f_equal. lia. Qed.

(** One entry: the [Link] built and the draws made, in closed form. *)
Lemma processLink_run (link : option RawLink) (w : World) :
  processLink uuid link w =
  (Normal
     {| link_id := if id_missing link then uuid (uuid_calls w)
                   else default EmptyString (link ≫= raw_id);
        link_title := or_string (link ≫= raw_title) EmptyString;
        link_url := formatUrl (or_string (link ≫= raw_url) EmptyString);
        link_icon := Some (or_string (link ≫= raw_icon) "link");
        link_display := Some (default DisplayBoth (link ≫= raw_display));
        link_photo_url :=
          Some (or_string (link ≫= raw_photo_url) EmptyString) |},
   after_draws (draws [link]) w).
Proof.
  assert (Hm : id_missing link =
               negb (truthy_opt_string (link ≫= raw_id))) by reflexivity.
  unfold processLink. simpl draws. rewrite Hm.
  destruct (link ≫= raw_id) as [[|c i]|]; simpl;
    unfold mbind, Eff_bind, randomUUID, mret, Eff_ret; simpl;
    try reflexivity.
  by rewrite after_draws_0.
Qed.

Lemma draws_app (l1 l2 : list (option RawLink)) :
  draws (l1 ++ l2) = draws l1 + draws l2.
Proof. induction l1 as [|x l1 IH]; simpl; [done|]. rewrite IH. lia. Qed.

Lemma draws_cons (x : option RawLink) (l : list (option RawLink)) :
  draws (x :: l) = draws [x] + draws l.
Proof. apply (draws_app [x] l). Qed.


(** The whole array: [map] never throws, makes [draws entries] draws,
    keeps the length, and builds position [i] from entry [i] in the
    world reached after the draws of the entries before it. *)
Lemma mapM_processLink (entries : list (option RawLink)) (w : World) :
  exists out,
    mapM (processLink uuid) entries w =
      (Normal out, after_draws (draws entries) w) /\
    length out = length entries /\
    forall i raw, entries !! i = Some raw ->
      exists l, out !! i = Some l /\
        processLink uuid raw (after_draws (draws (take i entries)) w) =
          (Normal l, after_draws (draws (take (S i) entries)) w).
Proof.
  revert w. induction entries as [|x entries IH]; intros w.
  - exists []. simpl. rewrite after_draws_0. by repeat split.
  - destruct (IH (after_draws (draws [x]) w)) as (out & Hrun & Hlen & Hpos).
    pose proof (processLink_run x w) as Hx.
    eexists (_ :: out). split; [|split].
    + simpl mapM. unfold mbind, Eff_bind. rewrite Hx.
      fold (@mapM (option RawLink) Link). rewrite Hrun.
      unfold mret, Eff_ret. rewrite after_draws_add, <- draws_cons.
      reflexivity.
    + simpl. by rewrite Hlen.
    + intros [|i] raw Hi.
      * injection Hi as <-. eexists. split; [reflexivity|].
        change (take 0 (x :: entries)) with (@nil (option RawLink)).
        change (draws []) with 0. rewrite after_draws_0.
        change (take 1 (x :: entries)) with [x]. exact Hx.
      * destruct (Hpos i raw Hi) as (l & Hl & Hrunl).
        exists l. split; [exact Hl|].
        rewrite !after_draws_add, <- !draws_cons in Hrunl.
        exact Hrunl.
Qed.

End Links.

(** ** The loader, path by path *)

(** Runs the loader's statements up to the next answer of the backend or
    of the host. *)
Ltac run_eff :=
  cbv beta iota zeta delta
    [load settle loadProfile try_finally try_catch load_body
     mbind Eff_bind mret Eff_ret modify return_ throw await
     setProfile setSettings setLoading setError console_emit console_log
     console_error toast navigate classList_dark style_setFont with_page
     truthy_opt_string negb from_option Datatypes.id fst snd];
  cbn [page console toasts navigations root_dark root_font uuid_calls
       st_profile st_settings st_loading st_error].

Section Failures.

Variable JSON_parse : string -> ParseResult.
Variable uuid : nat -> string.

(** C7, as the code has it.  When the profile query answers with an error
    value, the load ends in the error state ["Failed to load profile"],
    the error value itself is written to the console, and one destructive
    toast is fired; the toast carries the error's message when the value
    is an [Error] instance, and the text ["Unknown error"] when it is
    not. *)
Theorem load_error_notification
    (profiles : string -> Response Profile)
    (profile_settings : string -> Response RawSettings)
    (u : string) (d : option Profile) (e : JsError) (w : World) :
  truthy_string u = true ->
  profiles u = Resolved d (Some e) ->
  let w' := load JSON_parse uuid profiles profile_settings (Some u) w in
  st_error (page w') = Some "Failed to load profile" /\
  st_loading (page w') = false /\
  render (page w') = ErrorView "Failed to load profile" /\
  last (console w') =
    Some {| level := LevelError; text := "Profile error:";
            arg := Some (ArgError e) |} /\
  exists t, toasts w' = (toasts w ++ [t])%list /\
    title t = "Error" /\ variant t = "destructive" /\
    (instanceof_Error e = true ->
     description t = "Failed to load profile: " +:+ message e) /\
    (instanceof_Error e = false ->
     description t = "Failed to load profile: Unknown error").
Proof.
  intros Hu Hp. run_eff. rewrite Hu. run_eff. rewrite Hp. run_eff.
  split; [reflexivity|]. split; [reflexivity|]. split; [reflexivity|].
  split; [by rewrite last_snoc|].
  eexists. split; [reflexivity|]. cbn [title variant description].
  split; [reflexivity|]. split; [reflexivity|].
  split; intros ->; reflexivity.
Qed.

(** C8. A profile without a settings row ends the load in the error state
    ["Profile settings not found"], shown inline; the failure is written
    to the console and no toast is fired.  The message differs from that
    of a missing profile, which fires a toast, as do an error of the
    profile query and an error of the settings query. *)
Theorem settings_missing_is_silent :
  (forall profiles profile_settings u p w,
     truthy_string u = true ->
     profiles u = Resolved (Some p) None ->
     profile_settings (id p) = Resolved None None ->
     let w' := load JSON_parse uuid profiles profile_settings (Some u) w in
     st_error (page w') = Some "Profile settings not found" /\
     st_loading (page w') = false /\
     render (page w') = ErrorView "Profile settings not found" /\
     toasts w' = toasts w /\
     navigations w' = navigations w /\
     last (console w') =
       Some {| level := LevelError; text := "No settings found for profile:";
               arg := Some (ArgString (Some (id p))) |}) /\
  (forall profiles profile_settings u w,
     truthy_string u = true ->
     profiles u = Resolved None None ->
     let w' := load JSON_parse uuid profiles profile_settings (Some u) w in
     st_error (page w') = Some "Profile not found" /\
     render (page w') = ErrorView "Profile not found" /\
     exists t, toasts w' = (toasts w ++ [t])%list) /\
  (forall profiles profile_settings u d e w,
     truthy_string u = true ->
     profiles u = Resolved d (Some e) ->
     let w' := load JSON_parse uuid profiles profile_settings (Some u) w in
     st_error (page w') = Some "Failed to load profile" /\
     exists t, toasts w' = (toasts w ++ [t])%list) /\
  (forall profiles profile_settings u p d e w,
     truthy_string u = true ->
     profiles u = Resolved (Some p) None ->
     profile_settings (id p) = Resolved d (Some e) ->
     let w' := load JSON_parse uuid profiles profile_settings (Some u) w in
     st_error (page w') = Some "Error loading profile settings" /\
     exists t, toasts w' = (toasts w ++ [t])%list) /\
  "Profile settings not found" <> "Profile not found".
Proof.
  split; [|split; [|split; [|split]]].
  - intros profiles profile_settings u p w Hu Hp Hs.
    run_eff. rewrite Hu. run_eff. rewrite Hp. run_eff. rewrite Hs. run_eff.
    repeat (split; [reflexivity|]). by rewrite last_snoc.
  - intros profiles profile_settings u w Hu Hp.
    run_eff. rewrite Hu. run_eff. rewrite Hp. run_eff.
    repeat (split; [reflexivity|]). by eexists.
  - intros profiles profile_settings u d e w Hu Hp.
    run_eff. rewrite Hu. run_eff. rewrite Hp. run_eff.
    split; [reflexivity|]. by eexists.
  - intros profiles profile_settings u p d e w Hu Hp Hs.
    run_eff. rewrite Hu. run_eff. rewrite Hp. run_eff. rewrite Hs. run_eff.
    split; [reflexivity|]. by eexists.
  - discriminate.
Qed.

End Failures.

Lemma load_error_notification_witness :
  let e := ErrorInstance "connection refused" in
  let w' := load Sample.JSON_parse Sample.uuid (Sample.failing e)
              (Sample.settings_answer (Resolved None None))
              (Some "alice") Sample.fresh in
  render (page w') = ErrorView "Failed to load profile" /\
  (description <$> toasts w') =
    ["Failed to load profile: connection refused"].
Proof.
  intros e w'.
  destruct (load_error_notification Sample.JSON_parse Sample.uuid
              (Sample.failing e)
              (Sample.settings_answer (Resolved None None))
              "alice" None e Sample.fresh eq_refl eq_refl)
    as (_ & _ & Hview & _ & t & Ht & _ & _ & Hmsg & _).
  split; [exact Hview|].
  fold w' in Ht. rewrite Ht. simpl. by rewrite (Hmsg eq_refl).
Defined.

(** C7, as the claim states it, fails: for an error value that is not an
    [Error] instance the toast reads ["Unknown error"] and the message is
    nowhere in it. *)
Lemma load_error_message_not_in_toast :
  let e := ErrorObject "connection refused" in
  let w' := load Sample.JSON_parse Sample.uuid (Sample.failing e)
              (Sample.settings_answer (Resolved None None))
              (Some "alice") Sample.fresh in
  st_error (page w') = Some "Failed to load profile" /\
  toasts w' =
    [{| title := "Error";
        description := "Failed to load profile: Unknown error";
        variant := "destructive" |}] /\
  Forall (fun t => contains (description t) (message e) = false) (toasts w').
Proof.
  split; [reflexivity|]. split; [reflexivity|].
  apply Forall_cons. split; [by vm_compute | apply Forall_nil_2].
Qed.

Lemma settings_missing_is_silent_witness :
  let w' := load Sample.JSON_parse Sample.uuid Sample.profiles
              (Sample.settings_answer (Resolved None None))
              (Some "alice") Sample.fresh in
  render (page w') = ErrorView "Profile settings not found" /\
  toasts w' = [].
Proof.
  intros w'.
  destruct (settings_missing_is_silent Sample.JSON_parse Sample.uuid)
    as (Hmissing & _).
  destruct (Hmissing Sample.profiles
              (Sample.settings_answer (Resolved None None))
              "alice" Sample.alice Sample.fresh eq_refl eq_refl eq_refl)
    as (_ & _ & Hview & Htoasts & _).
  split; [exact Hview | exact Htoasts].
Defined.

(** ** The loader on a profile that has a settings row *)

Section Success.

Variable JSON_parse : string -> ParseResult.
Variable uuid : nat -> string.

Lemma after_logs_nil (w : World) : after_logs [] w = w.
Proof. destruct w. unfold after_logs. simpl. by rewrite app_nil_r. Qed.

Lemma processedLinks_array (row : RawSettings)
    (entries : list (option RawLink)) (w : World) :
  row_links row = LinksArray entries ->
  processedLinks uuid row w = mapM (processLink uuid) entries w.
Proof. intros H. unfold processedLinks. by rewrite H. Qed.

Lemma processedLinks_other (row : RawSettings) (w : World) :
  isArray (row_links row) = false ->
  processedLinks uuid row w = (Normal [], w).
Proof.
  intros H. unfold processedLinks. rewrite H, andb_false_r. reflexivity.
Qed.

(** [processedLinks] completes normally and only draws UUIDs. *)
Lemma processedLinks_normal (row : RawSettings) (w : World) :
  exists out n, processedLinks uuid row w = (Normal out, after_draws n w).
Proof.
  destruct (row_links row) as [|entries| | | |] eqn:E.
  2: { destruct (mapM_processLink uuid entries w) as (out & Hrun & _).
       exists out, (draws entries).
       by rewrite (processedLinks_array _ _ _ E). }
  all: exists [], 0; rewrite after_draws_0;
    apply processedLinks_other; by rewrite E.
Qed.

(** The parse statement, by cases on the stored text. *)
Lemma parse_background_style_cases (row : RawSettings)
    (t : ProfileSettings) (w : World) :
  parse_background_style JSON_parse row t w =
  match row_background_style row with
  | Some s =>
      if truthy_string s then
        match JSON_parse s with
        | Parsed v => (Normal (set_background_style t v), w)
        | SyntaxError e =>
            (Normal t,
             after_logs [{| level := LevelError;
                            text := "Failed to parse background style:";
                            arg := Some (ArgError e) |}] w)
        end
      else (Normal t, w)
  | None => (Normal t, w)
  end.
Proof.
  unfold parse_background_style.
  destruct (row_background_style row) as [s|]; [|reflexivity].
  destruct (truthy_string s); [|reflexivity].
  unfold try_catch, parse, mbind, Eff_bind.
  destruct (JSON_parse s); reflexivity.
Qed.

(** The parse statement completes normally, writes at most to the
    console, and changes at most the [background_style] of
    [typedSettings]. *)
Lemma parse_background_style_normal (row : RawSettings)
    (t : ProfileSettings) (w : World) :
  exists v es,
    parse_background_style JSON_parse row t w =
      (Normal (set_background_style t v), after_logs es w).
Proof.
  assert (Hid : set_background_style t (background_style t) = t)
    by (by destruct t).
  rewrite parse_background_style_cases.
  destruct (row_background_style row) as [s|].
  2: { exists (background_style t), []. by rewrite Hid, after_logs_nil. }
  destruct (truthy_string s).
  2: { exists (background_style t), []. by rewrite Hid, after_logs_nil. }
  destruct (JSON_parse s) as [v|e].
  - exists v, []. by rewrite after_logs_nil.
  - eexists (background_style t), [_]. by rewrite Hid.
Qed.

(** The load of a profile with a settings row: the statements before
    [processedLinks] leave a world [W] with no UUID drawn and no toast
    fired; the links are processed there, the sub-document is parsed, and
    the page ends with the profile and the settings set, not loading and
    without an error. *)
Lemma load_found
    (profiles : string -> Response Profile)
    (profile_settings : string -> Response RawSettings)
    (u : string) (p : Profile) (row : RawSettings) (w : World) :
  truthy_string u = true ->
  profiles u = Resolved (Some p) None ->
  profile_settings (id p) = Resolved (Some row) None ->
  exists W out n v es,
    let t := set_background_style (typedSettings row out) v in
    uuid_calls W = uuid_calls w /\
    console W =
      (console w ++
       [{| level := LevelLog; text := "Fetching profile for username:";
           arg := Some (ArgString (Some u)) |};
        {| level := LevelLog; text := "Profile fetch result:";
           arg := Some (ArgProfileResult (Some p) None) |};
        {| level := LevelLog; text := "Settings fetch result:";
           arg := Some (ArgSettingsResult (Some row) None) |}])%list /\
    processedLinks uuid row W = (Normal out, after_draws n W) /\
    parse_background_style JSON_parse row (typedSettings row out)
      (after_draws n W) = (Normal t, after_logs es (after_draws n W)) /\
    let w' := load JSON_parse uuid profiles profile_settings (Some u) w in
    page w' = {| st_profile := Some p; st_settings := Some t;
                 st_loading := false; st_error := None |} /\
    toasts w' = toasts w /\
    navigations w' = navigations w /\
    console w' = (console W ++ es)%list /\
    root_dark w' = default false (row_is_dark_mode row) /\
    root_font w' =
      Some ("var(--font-" +:+ or_string (font_style t) "sans" +:+ ")").
Proof.
  intros Hu Hp Hs.
  run_eff. rewrite Hu. run_eff. rewrite Hp. run_eff. rewrite Hs. run_eff.
  match goal with
  | |- context [load_settings _ _ _ ?W0] => set (W := W0)
  end.
  destruct (processedLinks_normal row W) as (out & n & Hout).
  destruct (parse_background_style_normal row (typedSettings row out)
              (after_draws n W)) as (v & es & Hparse).
  exists W, out, n, v, es. cbv zeta.
  split; [reflexivity|].
  split; [subst W; cbn [console]; by rewrite <- !app_assoc|].
  split; [exact Hout|]. split; [exact Hparse|].
  unfold load_settings. run_eff. rewrite Hout. run_eff.
  rewrite Hparse. run_eff.
  destruct (row_is_dark_mode row) as [[|]|]; run_eff; by repeat split.
Qed.

End Success.

Section Settings.

Variable JSON_parse : string -> ParseResult.
Variable uuid : nat -> string.

Lemma after_logs_inv (es es' : list ConsoleEntry) (w : World) :
  after_logs es w = after_logs es' w -> es = es'.
Proof.
  unfold after_logs. intros H. injection H as H. by apply app_inv_head in H.
Qed.

Lemma normal_inv {A} (a b : A) (w1 w2 : World) :
  (Normal a, w1) = (Normal b, w2) -> a = b /\ w1 = w2.
Proof. by intros [= -> ->]. Qed.

Lemma set_background_style_inv (t : ProfileSettings)
    (v : option BackgroundStyle) :
  t = set_background_style t v -> v = background_style t.
Proof. intros H. by apply (f_equal background_style) in H. Qed.


(** The empty text is falsy: it is not parsed, nothing is logged for it,
    and the load succeeds without an override all the same. *)
Lemma empty_background_not_parsed
    (profiles : string -> Response Profile)
    (profile_settings : string -> Response RawSettings)
    (u : string) (p : Profile) (row : RawSettings) (w : World) :
  truthy_string u = true ->
  profiles u = Resolved (Some p) None ->
  profile_settings (id p) = Resolved (Some row) None ->
  row_background_style row = Some EmptyString ->
  let w' := load JSON_parse uuid profiles profile_settings (Some u) w in
  last (console w') =
    Some {| level := LevelLog; text := "Settings fetch result:";
            arg := Some (ArgSettingsResult (Some row) None) |} /\
  st_error (page w') = None /\
  exists t, st_settings (page w') = Some t /\ background_style t = None.
Proof.
  intros Hu Hp Hs Hbg w'.
  destruct (load_found JSON_parse uuid profiles profile_settings
              u p row w Hu Hp Hs)
    as (W & out & n & v & es & _ & HW & _ & Hparse & Hpage & _ & _ &
        Hconsole & _).
  fold w' in Hpage, Hconsole.
  rewrite parse_background_style_cases, Hbg in Hparse. cbn in Hparse.
  apply normal_inv in Hparse as [Ht Hes].
  rewrite <- (after_logs_nil (after_draws n W)) in Hes at 1.
  apply after_logs_inv in Hes. subst es.
  apply set_background_style_inv in Ht. cbn in Ht. subst v.
  rewrite Hpage, Hconsole, app_nil_r, HW. cbn [st_error st_settings].
  split; [by rewrite last_app|].
  split; [reflexivity|by eexists].
Qed.

End Settings.



(** ** The normalized settings and links *)

Section Normalization.

Variable JSON_parse : string -> ParseResult.
Variable uuid : nat -> string.

(** C5. The settings the loader stores take the default for each field
    the row lacks: theme ["elegant"], dark mode off, font ["sans"],
    layout ["links"]; a row with only [links: []] set is stored with
    exactly these four values. *)
Theorem loader_defaults
    (profiles : string -> Response Profile)
    (profile_settings : string -> Response RawSettings)
    (u : string) (p : Profile) (row : RawSettings) (w : World) :
  truthy_string u = true ->
  profiles u = Resolved (Some p) None ->
  profile_settings (id p) = Resolved (Some row) None ->
  let w' := load JSON_parse uuid profiles profile_settings (Some u) w in
  exists t, st_settings (page w') = Some t /\
    (row_theme_id row = None -> theme_id t = "elegant") /\
    (row_is_dark_mode row = None -> is_dark_mode t = false) /\
    (row_font_style row = None -> font_style t = Some "sans") /\
    (row_layout_type row = None -> layout_type t = Some "links") /\
    (row = Sample.only_links ->
     theme_id t = "elegant" /\ is_dark_mode t = false /\
     font_style t = Some "sans" /\ layout_type t = Some "links" /\
     links t = []).
Proof.
  intros Hu Hp Hs w'.
  destruct (load_found JSON_parse uuid profiles profile_settings
              u p row w Hu Hp Hs)
    as (W & out & n & v & es & _ & _ & Hout & _ & Hpage & _).
  fold w' in Hpage. rewrite Hpage. cbn [st_settings].
  eexists. split; [reflexivity|].
  cbn [theme_id is_dark_mode font_style layout_type links
       set_background_style typedSettings].
  split; [by intros ->|]. split; [by intros ->|].
  split; [by intros ->|]. split; [by intros ->|].
  intros ->. repeat (split; [reflexivity|]).
  rewrite (processedLinks_array uuid Sample.only_links [] W eq_refl) in Hout.
  by apply normal_inv in Hout as [<- _].
Qed.

Lemma processLink_value (raw : option RawLink) (w1 w2 : World) :
  uuid_calls w1 = uuid_calls w2 ->
  fst (processLink uuid raw w1) = fst (processLink uuid raw w2).
Proof. intros H. rewrite !processLink_run. cbn [fst]. by rewrite H. Qed.

(** C10. When the row's [links] is an array, the stored links have its
    length, and the link at each position is what the loader's callback
    builds from the entry at that position, run after the draws of the
    entries before it; when [links] is absent or not an array, the stored
    links are empty. *)
Theorem links_order_preserved
    (profiles : string -> Response Profile)
    (profile_settings : string -> Response RawSettings)
    (u : string) (p : Profile) (row : RawSettings) (w : World) :
  truthy_string u = true ->
  profiles u = Resolved (Some p) None ->
  profile_settings (id p) = Resolved (Some row) None ->
  let w' := load JSON_parse uuid profiles profile_settings (Some u) w in
  exists t, st_settings (page w') = Some t /\
    (forall entries, row_links row = LinksArray entries ->
       length (links t) = length entries /\
       forall i raw, entries !! i = Some raw ->
         exists l, links t !! i = Some l /\
           fst (processLink uuid raw
                  (after_draws (draws (take i entries)) w)) = Normal l) /\
    (isArray (row_links row) = false -> links t = []).
Proof.
  intros Hu Hp Hs w'.
  destruct (load_found JSON_parse uuid profiles profile_settings
              u p row w Hu Hp Hs)
    as (W & out & n & v & es & HW & _ & Hout & _ & Hpage & _).
  fold w' in Hpage. rewrite Hpage. cbn [st_settings].
  eexists. split; [reflexivity|].
  cbn [links set_background_style typedSettings]. split.
  - intros entries Hrow.
    rewrite (processedLinks_array uuid _ _ W Hrow) in Hout.
    destruct (mapM_processLink uuid entries W) as (out' & Hrun & Hlen & Hpos).
    rewrite Hrun in Hout. apply normal_inv in Hout as [-> _].
    split; [exact Hlen|]. intros i raw Hi.
    destruct (Hpos i raw Hi) as (l & Hl & Hrunl).
    exists l. split; [exact Hl|].
    rewrite (processLink_value raw _
               (after_draws (draws (take i entries)) W)).
    + by rewrite Hrunl.
    + cbn [uuid_calls after_draws]. by rewrite HW.
  - intros Hna. rewrite (processedLinks_other uuid _ W Hna) in Hout.
    by apply normal_inv in Hout as [<- _].
Qed.

End Normalization.

Section Entries.

Variable uuid : nat -> string.





End Entries.

(** ** The examples of the specification, on the sample backend *)

Section Examples.




End Examples.

Lemma loader_defaults_witness :
  let w' := load Sample.JSON_parse Sample.uuid Sample.profiles
              (Sample.settings_answer
                 (Resolved (Some Sample.only_links) None))
              (Some "alice") Sample.fresh in
  exists t, st_settings (page w') = Some t /\
    theme_id t = "elegant" /\ is_dark_mode t = false /\
    font_style t = Some "sans" /\ layout_type t = Some "links".
Proof.
  intros w'.
  destruct (loader_defaults Sample.JSON_parse Sample.uuid Sample.profiles
              (Sample.settings_answer
                 (Resolved (Some Sample.only_links) None))
              "alice" Sample.alice Sample.only_links Sample.fresh
              eq_refl eq_refl eq_refl)
    as (t & Ht & H1 & H2 & H3 & H4 & _).
  exists t. split; [exact Ht|].
  split; [exact (H1 eq_refl)|]. split; [exact (H2 eq_refl)|].
  split; [exact (H3 eq_refl)|exact (H4 eq_refl)].
Defined.

Lemma links_order_preserved_witness :
  let row := Sample.row_with_background "null" in
  let w' := load Sample.JSON_parse Sample.uuid Sample.profiles
              (Sample.settings_answer (Resolved (Some row) None))
              (Some "alice") Sample.fresh in
  exists t, st_settings (page w') = Some t /\
    length (links t) = 2 /\
    (link_url <$> links t !! 0) = Some "https://example.com" /\
    (link_id <$> links t !! 1) = Some "uuid-i".
Proof.
  intros row w'.
  destruct (links_order_preserved Sample.JSON_parse Sample.uuid
              Sample.profiles
              (Sample.settings_answer (Resolved (Some row) None))
              "alice" Sample.alice row Sample.fresh
              eq_refl eq_refl eq_refl)
    as (t & Ht & Harr & _).
  destruct (Harr [Some Sample.example_com; None] eq_refl) as (Hlen & Hpos).
  destruct (Hpos 0 (Some Sample.example_com) eq_refl) as (l0 & Hl0 & Hv0).
  destruct (Hpos 1 None eq_refl) as (l1 & Hl1 & Hv1).
  exists t. split; [exact Ht|]. split; [exact Hlen|].
  rewrite Hl0, Hl1. vm_compute in Hv0, Hv1.
  injection Hv0 as <-. injection Hv1 as <-. by split.
Defined.


(** ** Further properties of the URL formatter *)

Lemma formatUrl_shape (s : string) :
  formatUrl s = s \/ formatUrl s = "https:" +:+ s \/
  formatUrl s = "https://" +:+ s.
Proof.
  destruct s as [|c s]; [by left|]. set (u := String c s).
  assert (Hu : formatUrl u =
    if startsWith u "http://" || startsWith u "https://" then u
    else if startsWith u "//" then "https:" +:+ u else "https://" +:+ u)
    by reflexivity.
  rewrite Hu.
  destruct (startsWith u "http://" || startsWith u "https://");
    [by left|].
  destruct (startsWith u "//"); [right; by left | right; by right].
Qed.

Lemma formatUrl_protocol (s : string) :
  s <> EmptyString ->
  startsWith (formatUrl s) "http://" || startsWith (formatUrl s) "https://"
  = true.
Proof.
  intros Hne. destruct s as [|c s]; [done|]. set (u := String c s).
  assert (Hu : formatUrl u =
    if startsWith u "http://" || startsWith u "https://" then u
    else if startsWith u "//" then "https:" +:+ u else "https://" +:+ u)
    by reflexivity.
  rewrite Hu.
  destruct (startsWith u "http://" || startsWith u "https://") eqn:H1;
    [done|].
  destruct (startsWith u "//") eqn:H3; [|done].
  apply startsWith_iff in H3 as [r ->]. done.
Qed.

(** A text that already has a protocol is left as it is. *)
Lemma formatUrl_fixed (s : string) :
  startsWith s "http://" || startsWith s "https://" = true ->
  formatUrl s = s.
Proof.
  intros H. destruct s as [|c s]; [done|]. unfold formatUrl.
  cbn [truthy_string negb]. by rewrite H.
Qed.

(** [formatUrl] only ever prepends: its result is the input itself, or
    the input behind ["https:"], or the input behind ["https://"]; no
    character of the input is dropped or changed. *)
Theorem formatUrl_only_prepends (s : string) :
  formatUrl s = s \/ formatUrl s = "https:" +:+ s \/
  formatUrl s = "https://" +:+ s.
Proof. apply formatUrl_shape. Qed.

(** The result of [formatUrl] is empty exactly for the empty input, and
    every other result begins with ["http://"] or ["https://"]. *)
Theorem formatUrl_has_protocol (s : string) :
  (formatUrl s = EmptyString <-> s = EmptyString) /\
  (s <> EmptyString ->
   startsWith (formatUrl s) "http://" = true \/
   startsWith (formatUrl s) "https://" = true).
Proof.
  split.
  - split; [|by intros ->].
    destruct s as [|c s]; [done|]. intros H.
    destruct (formatUrl_shape (String c s)) as [H'|[H'|H']];
      rewrite H' in H; discriminate H.
  - intros Hne. by apply orb_true_iff, formatUrl_protocol.
Qed.

Lemma formatUrl_has_protocol_witness :
  startsWith (formatUrl "example.com/a?b=c") "https://" = true.
Proof.
  destruct (formatUrl_has_protocol "example.com/a?b=c") as [_ H].
  destruct (H ltac:(discriminate)) as [H'|H']; [discriminate H'|exact H'].
Defined.

(** ** Further properties of theme resolution and of the view *)

(** The resolved theme is never [undefined]: reading its [background]
    cannot throw, whatever the theme id. *)
Theorem theme_is_defined (settings : ProfileSettings) :
  theme settings <> NoTheme.
Proof.
  unfold theme.
  destruct (THEMES_get (or_str (theme_id settings) "elegant")) eqn:E;
    cbn [truthy_slot]; [done|done|].
  by rewrite THEMES_elegant.
Qed.

Lemma error_text_nonempty (e : option string) : error_text e <> EmptyString.
Proof. by destruct e as [[|c m]|]. Qed.

(** What the component returns, from its state: the spinner exactly while
    loading; the profile page exactly when not loading, with the error
    falsy and both profile and settings set, showing that profile and the
    links of those settings; the error view otherwise, whose text is
    never empty. *)
Theorem render_cases (st : PageState) :
  (render st = LoadingView <-> st_loading st = true) /\
  (forall v, render st = ProfilePage v ->
     st_loading st = false /\ truthy_opt_string (st_error st) = false /\
     st_profile st = Some (view_profile v) /\
     exists settings, st_settings st = Some settings /\
       view_links v = links settings /\
       view_textShadowClass v = textShadowClass settings) /\
  (forall m, render st = ErrorView m ->
     m <> EmptyString /\
     (truthy_opt_string (st_error st) = true -> st_error st = Some m)).
Proof.
  unfold render. destruct (st_loading st).
  { split; [done|]. split; [done|]. done. }
  destruct (truthy_opt_string (st_error st)) eqn:He.
  - split; [done|]. split; [done|]. intros m [= <-].
    split; [apply error_text_nonempty|]. intros _.
    destruct (st_error st) as [[|c e]|]; done.
  - destruct (st_profile st) as [p|], (st_settings st) as [t|].
    + split; [done|]. split; [|done]. intros v [= <-].
      cbn [view_profile view_links view_textShadowClass].
      repeat split. by exists t.
    + split; [done|]. split; [done|]. intros m [= <-].
      split; [apply error_text_nonempty | done].
    + split; [done|]. split; [done|]. intros m [= <-].
      split; [apply error_text_nonempty | done].
    + split; [done|]. split; [done|]. intros m [= <-].
      split; [apply error_text_nonempty | done].
Qed.

Lemma render_cases_witness :
  let st := {| st_profile := Some Sample.alice;
               st_settings := Some (Sample.settings_of None "ocean");
               st_loading := false; st_error := Some EmptyString |} in
  exists v, render st = ProfilePage v /\ st_profile st = Some (view_profile v).
Proof.
  intros st.
  destruct (render_cases st) as (_ & Hpage & _).
  eexists. split; [reflexivity|].
  by destruct (Hpage _ eq_refl) as (_ & _ & Hp & _).
Defined.

(** ** Page title and edit button *)

(** The page title is never empty; it is the custom title when that is
    set and not empty, else the full name when that is not empty, else
    the user name followed by ["'s Digital Identity"]. *)
Theorem pageTitle_precedence (profile : option Profile) :
  pageTitle profile <> EmptyString /\
  (forall p c, profile = Some p -> custom_title p = Some c ->
     c <> EmptyString -> pageTitle profile = c) /\
  (forall p, profile = Some p ->
     or_string (custom_title p) EmptyString = EmptyString ->
     full_name p <> EmptyString -> pageTitle profile = full_name p) /\
  (forall p, profile = Some p ->
     or_string (custom_title p) EmptyString = EmptyString ->
     full_name p = EmptyString ->
     pageTitle profile = username p +:+ "'s Digital Identity").
Proof.
  split; [|split; [|split]].
  - unfold pageTitle.
    assert (Hlast : forall s, s +:+ "'s Digital Identity" <> EmptyString)
      by (by intros [|c s]).
    destruct profile as [[u f b a i [[|c t]|]]|]; cbn;
      try done; destruct f; cbn; try done; apply Hlast.
  - intros p c -> Hc Hne. unfold pageTitle. cbn. rewrite Hc.
    by destruct c.
  - intros p -> Hc Hf. unfold pageTitle. cbn.
    destruct (custom_title p) as [[|c t]|]; cbn in Hc |- *; try done;
      by destruct (full_name p).
  - intros p -> Hc Hf. unfold pageTitle. cbn.
    destruct (custom_title p) as [[|c t]|]; cbn in Hc |- *; try done;
      by rewrite Hf.
Qed.

Lemma pageTitle_precedence_witness :
  pageTitle (Some Sample.alice) = "Alice".
Proof.
  destruct (pageTitle_precedence (Some Sample.alice)) as (_ & _ & H & _).
  apply (H Sample.alice eq_refl eq_refl). discriminate.
Defined.

(** The edit button does exactly one thing: with a loaded profile whose
    user name is not empty it requests one navigation, to that profile's
    editor, and fires no toast; otherwise it fires one destructive toast
    and requests no navigation.  The page state is never changed. *)
Theorem handleEditProfile_exclusive (st : PageState) (w : World) :
  let w' := settle (handleEditProfile st) w in
  page w' = page w /\
  ((exists p, st_profile st = Some p /\ username p <> EmptyString /\
      navigations w' =
        (navigations w ++ ["/edit-profile/" +:+ username p])%list /\
      toasts w' = toasts w) \/
   ((forall p, st_profile st = Some p -> username p = EmptyString) /\
    navigations w' = navigations w /\
    exists t, toasts w' = (toasts w ++ [t])%list /\
      variant t = "destructive")).
Proof.
  unfold handleEditProfile, settle.
  destruct (st_profile st) as [p|]; cbn [fmap option_fmap option_map
    truthy_opt_string].
  - destruct (username p) as [|c u] eqn:Hu; cbn [truthy_string].
    + split; [reflexivity|]. right. split; [by intros ? [= <-]|].
      split; [reflexivity|]. by eexists.
    + split; [reflexivity|]. left. exists p. rewrite Hu.
      by repeat split.
  - split; [reflexivity|]. right. split; [done|].
    split; [reflexivity|]. by eexists.
Qed.

(** ** The loader as a whole *)

(** Closes the goals a failed load leaves, over zero or one toast. *)
Ltac close_failure :=
  cbn [truthy_string]; rewrite ?app_nil_r;
  repeat (split; [by eauto|]);
  first [ by (exists []; rewrite app_nil_r; repeat split; eauto)
        | by (eexists [_]; repeat split; eauto) ].

Section Outcome.

Variable JSON_parse : string -> ParseResult.
Variable uuid : nat -> string.
Variable profiles : string -> Response Profile.
Variable profile_settings : string -> Response RawSettings.

(** Every load either had both rows, or ended with an error text set and
    touched neither the stored settings, nor the document root, nor the
    UUID generator; it then fired at most one toast, and asked for a
    navigation exactly when the user name was missing. *)
Lemma load_found_or_failed (username : option string) (w : World) :
  (exists p row, found profiles profile_settings username p row) \/
  (let w' := load JSON_parse uuid profiles profile_settings username w in
   (exists m, st_error (page w') = Some m) /\
   st_loading (page w') = false /\
   st_settings (page w') = st_settings (page w) /\
   root_dark w' = root_dark w /\ root_font w' = root_font w /\
   uuid_calls w' = uuid_calls w /\
   navigations w' =
     (navigations w ++
      if truthy_opt_string username then [] else ["/404"])%list /\
   exists ts, toasts w' = (toasts w ++ ts)%list /\ length ts <= 1 /\
     Forall (fun t => variant t = "destructive") ts).
Proof.
  destruct username as [[|c u]|].
  - right. run_eff. close_failure.
  - destruct (profiles (String c u)) as [[p|] [e|] | r] eqn:Hp.
    2: destruct (profile_settings (id p)) as [[row|] [e|] | r] eqn:Hs.
    3: { left. exists p, row, (String c u). by repeat split. }
    all: right; run_eff; cbn [truthy_string]; run_eff; rewrite Hp; run_eff;
      try (rewrite Hs; run_eff); close_failure.
  - right. run_eff. close_failure.
Qed.

End Outcome.

Section Whole.

Variable JSON_parse : string -> ParseResult.
Variable uuid : nat -> string.
Variable profiles : string -> Response Profile.
Variable profile_settings : string -> Response RawSettings.

Lemma after_draws_calls_inv (n m : nat) (w : World) :
  after_draws n w = after_draws m w -> n = m.
Proof.
  intros H. apply (f_equal uuid_calls) in H. cbn in H. lia.
Qed.

(** The UUID calls made by a load that had both rows. *)
Lemma load_found_calls (u : string) (p : Profile) (row : RawSettings)
    (w : World) :
  truthy_string u = true ->
  profiles u = Resolved (Some p) None ->
  profile_settings (id p) = Resolved (Some row) None ->
  uuid_calls (load JSON_parse uuid profiles profile_settings (Some u) w) =
  match row_links row with
  | LinksArray entries => draws entries
  | _ => 0
  end + uuid_calls w.
Proof.
  intros Hu Hp Hs.
  run_eff. rewrite Hu. run_eff. rewrite Hp. run_eff. rewrite Hs. run_eff.
  match goal with
  | |- context [load_settings _ _ _ ?W0] => set (W := W0)
  end.
  destruct (processedLinks_normal uuid row W) as (out & n & Hout).
  destruct (parse_background_style_normal JSON_parse row
              (typedSettings row out) (after_draws n W))
    as (v & es & Hparse).
  assert (Hn : n = match row_links row with
                   | LinksArray entries => draws entries
                   | _ => 0
                   end).
  { destruct (row_links row) as [|entries| | | |] eqn:E.
    2: { rewrite (processedLinks_array uuid _ _ W E) in Hout.
         destruct (mapM_processLink uuid entries W) as (o & Hrun & _).
         rewrite Hrun in Hout. apply normal_inv in Hout as [_ Hout].
         symmetry. by apply after_draws_calls_inv in Hout. }
    all: rewrite (processedLinks_other uuid row W) in Hout
           by (by rewrite E);
         apply normal_inv in Hout as [_ Hout];
         rewrite <- (after_draws_0 W) in Hout at 1;
         symmetry; by apply after_draws_calls_inv in Hout. }
  unfold load_settings. run_eff. rewrite Hout. run_eff.
  rewrite Hparse. run_eff.
  destruct (row_is_dark_mode row) as [[|]|]; run_eff;
    cbn [uuid_calls after_logs after_draws]; subst W; cbn [uuid_calls];
    by rewrite Hn.
Qed.

(** The loader always ends with the loading flag off: the spinner never
    outlives a load, whatever the backend and the host answered. *)
Theorem load_always_stops_loading (username : option string) (w : World) :
  let w' := load JSON_parse uuid profiles profile_settings username w in
  st_loading (page w') = false /\ render (page w') <> LoadingView.
Proof.
  intros w'.
  assert (H : st_loading (page w') = false).
  { destruct (load_found_or_failed JSON_parse uuid profiles
                profile_settings username w)
      as [(p & row & u & -> & Hu & Hp & Hs) | (_ & H & _)]; [|exact H].
    destruct (load_found JSON_parse uuid profiles profile_settings
                u p row w Hu Hp Hs)
      as (W & out & n & v & es & _ & _ & _ & _ & Hpage & _).
    fold w' in Hpage. by rewrite Hpage. }
  split; [exact H|]. unfold render. rewrite H.
  by destruct (truthy_opt_string (st_error (page w'))),
    (st_profile (page w')), (st_settings (page w')).
Qed.

(** A load fires at most one toast, always a destructive one, and none
    when it ends without an error. *)
Theorem load_fires_at_most_one_toast (username : option string)
    (w : World) :
  let w' := load JSON_parse uuid profiles profile_settings username w in
  exists ts, toasts w' = (toasts w ++ ts)%list /\ length ts <= 1 /\
    Forall (fun t => variant t = "destructive") ts /\
    (st_error (page w') = None -> ts = []).
Proof.
  intros w'.
  destruct (load_found_or_failed JSON_parse uuid profiles
              profile_settings username w)
    as [(p & row & u & -> & Hu & Hp & Hs) |
        ((m & Hm) & _ & _ & _ & _ & _ & _ & ts & Hts & Hlen & Hvar)].
  - destruct (load_found JSON_parse uuid profiles profile_settings
                u p row w Hu Hp Hs)
      as (W & out & n & v & es & _ & _ & _ & _ & _ & Ht & _).
    exists []. fold w' in Ht. rewrite Ht, app_nil_r.
    repeat split; [simpl; lia | constructor].
  - exists ts. fold w' in Hm, Hts. rewrite Hm.
    by repeat split.
Qed.

(** The loader asks for a navigation exactly when the user name is
    missing or empty, and then for ["/404"] only. *)
Theorem load_navigates_only_without_username (username : option string)
    (w : World) :
  navigations (load JSON_parse uuid profiles profile_settings username w) =
  (navigations w ++
   if truthy_opt_string username then [] else ["/404"])%list.
Proof.
  destruct (load_found_or_failed JSON_parse uuid profiles
              profile_settings username w)
    as [(p & row & u & -> & Hu & Hp & Hs) |
        (_ & _ & _ & _ & _ & _ & H & _)]; [|exact H].
  destruct (load_found JSON_parse uuid profiles profile_settings
              u p row w Hu Hp Hs)
    as (W & out & n & v & es & _ & _ & _ & _ & _ & _ & Hnav & _).
  rewrite Hnav. cbn [truthy_opt_string]. by rewrite Hu, app_nil_r.
Qed.

(** A load that ends without an error text had both rows: the profile
    stored is the one the backend gave for the user name, settings are
    stored, and the page renders that profile. *)
Theorem load_without_error_means_loaded (username : option string)
    (w : World) :
  let w' := load JSON_parse uuid profiles profile_settings username w in
  st_error (page w') = None ->
  exists p row, found profiles profile_settings username p row /\
    st_profile (page w') = Some p /\
    is_Some (st_settings (page w')) /\
    exists v, render (page w') = ProfilePage v /\ view_profile v = p.
Proof.
  intros w' Herr.
  destruct (load_found_or_failed JSON_parse uuid profiles
              profile_settings username w)
    as [(p & row & u & -> & Hu & Hp & Hs) | ((m & Hm) & _)].
  2: { fold w' in Hm. congruence. }
  exists p, row. split; [by exists u|].
  destruct (load_found JSON_parse uuid profiles profile_settings
              u p row w Hu Hp Hs)
    as (W & out & n & v & es & _ & _ & _ & _ & Hpage & _).
  fold w' in Hpage. rewrite Hpage. cbn [st_profile st_settings].
  split; [reflexivity|]. split; [by eexists|].
  eexists. split; [reflexivity|]. reflexivity.
Qed.

(** A load that ends with an error text set leaves the stored settings,
    the dark class, the font property and the UUID generator as they
    were. *)
Theorem failed_load_keeps_settings_and_document
    (username : option string) (w : World) :
  let w' := load JSON_parse uuid profiles profile_settings username w in
  st_error (page w') <> None ->
  st_settings (page w') = st_settings (page w) /\
  root_dark w' = root_dark w /\ root_font w' = root_font w /\
  uuid_calls w' = uuid_calls w.
Proof.
  intros w' Herr.
  destruct (load_found_or_failed JSON_parse uuid profiles
              profile_settings username w)
    as [(p & row & u & -> & Hu & Hp & Hs) |
        (_ & _ & H1 & H2 & H3 & H4 & _)]; [|done].
  destruct (load_found JSON_parse uuid profiles profile_settings
              u p row w Hu Hp Hs)
    as (W & out & n & v & es & _ & _ & _ & _ & Hpage & _).
  fold w' in Hpage. by rewrite Hpage in Herr.
Qed.

(** After a load that had both rows, the document root agrees with the
    stored settings: the dark class is on exactly when the stored dark
    mode is, and the font property names the stored font, which is never
    empty. *)
Theorem load_applies_dark_mode_and_font (u : string) (p : Profile)
    (row : RawSettings) (w : World) :
  truthy_string u = true ->
  profiles u = Resolved (Some p) None ->
  profile_settings (id p) = Resolved (Some row) None ->
  let w' := load JSON_parse uuid profiles profile_settings (Some u) w in
  exists t f, st_settings (page w') = Some t /\
    root_dark w' = is_dark_mode t /\
    font_style t = Some f /\ f <> EmptyString /\
    root_font w' = Some ("var(--font-" +:+ f +:+ ")").
Proof.
  intros Hu Hp Hs w'.
  destruct (load_found JSON_parse uuid profiles profile_settings
              u p row w Hu Hp Hs)
    as (W & out & n & v & es & _ & _ & _ & _ & Hpage & _ & _ & _ &
        Hdark & Hfont).
  fold w' in Hpage, Hdark, Hfont. rewrite Hpage, Hdark, Hfont.
  cbn [st_settings]. do 2 eexists. split; [reflexivity|].
  cbn [is_dark_mode font_style set_background_style typedSettings].
  split; [reflexivity|]. split; [reflexivity|].
  destruct (row_font_style row) as [[|c f]|]; by cbn.
Qed.

(** A load that had both rows calls [crypto.randomUUID] once for each
    entry of the links array that lacks an id, and not at all when
    [links] is not an array. *)
Theorem load_draws_one_uuid_per_missing_id (u : string) (p : Profile)
    (row : RawSettings) (w : World) :
  truthy_string u = true ->
  profiles u = Resolved (Some p) None ->
  profile_settings (id p) = Resolved (Some row) None ->
  let w' := load JSON_parse uuid profiles profile_settings (Some u) w in
  (forall entries, row_links row = LinksArray entries ->
     uuid_calls w' =
       length (filter (fun l => id_missing l = true) entries) +
       uuid_calls w) /\
  (isArray (row_links row) = false -> uuid_calls w' = uuid_calls w).
Proof.
  intros Hu Hp Hs w'.
  pose proof (load_found_calls u p row w Hu Hp Hs) as H. fold w' in H.
  split.
  - intros entries E. rewrite H, E. f_equal.
    clear. induction entries as [|x l IH]; [done|].
    cbn [draws]. rewrite filter_cons. rewrite IH.
    destruct (id_missing x); by case_decide.
  - intros E. rewrite H. by destruct (row_links row).
Qed.

End Whole.

Section Queries.

Variable JSON_parse : string -> ParseResult.
Variable uuid : nat -> string.

(** The settings query is keyed by the id of the profile found: two
    backends that give the same answer there give the same load, and a
    load that found no profile does not depend on the settings backend at
    all. *)
Theorem settings_query_keyed_by_profile_id
    (profiles : string -> Response Profile)
    (settings1 settings2 : string -> Response RawSettings)
    (username : option string) (w : World) :
  (forall u p, username = Some u ->
     profiles u = Resolved (Some p) None ->
     settings1 (id p) = settings2 (id p)) ->
  load JSON_parse uuid profiles settings1 username w =
  load JSON_parse uuid profiles settings2 username w.
Proof.
  intros H. destruct username as [[|c u]|]; [reflexivity| |reflexivity].
  destruct (profiles (String c u)) as [[p|] [e|] | r] eqn:Hp;
    try specialize (H _ _ eq_refl Hp);
    run_eff; cbn [truthy_string]; run_eff; rewrite Hp; run_eff;
    try reflexivity.
  by rewrite H.
Qed.

(** A rejected query, the first or the second, is caught: the error text
    is the message of the thrown value, which is also the last console
    entry, and the one toast fired reads ["Failed to load digital
    identity"].  The page shows that message when it is not empty, and
    the fixed not-found text when it is empty and no settings were stored
    before. *)
Theorem rejected_query_is_caught
    (profiles : string -> Response Profile)
    (profile_settings : string -> Response RawSettings)
    (u : string) (r : JsError) (w : World) :
  truthy_string u = true ->
  profiles u = Rejected r \/
  (exists p, profiles u = Resolved (Some p) None /\
             profile_settings (id p) = Rejected r) ->
  let w' := load JSON_parse uuid profiles profile_settings (Some u) w in
  st_error (page w') = Some (message r) /\
  st_loading (page w') = false /\
  toasts w' =
    (toasts w ++ [{| title := "Error";
                     description := "Failed to load digital identity";
                     variant := "destructive" |}])%list /\
  last (console w') =
    Some {| level := LevelError; text := "Error loading profile:";
            arg := Some (ArgError r) |} /\
  (message r <> EmptyString -> render (page w') = ErrorView (message r)) /\
  (message r = EmptyString -> st_settings (page w) = None ->
   render (page w') = ErrorView "This digital identity does not exist").
Proof.
  intros Hu [Hp | (p & Hp & Hs)].
  - run_eff. rewrite Hu. run_eff. rewrite Hp. run_eff.
    repeat (split; [reflexivity|]). split; [by rewrite last_snoc|].
    unfold render. cbn [st_loading st_error st_profile st_settings
      truthy_opt_string error_text]. split.
    + intros Hm. destruct (message r); [done|]. reflexivity.
    + intros -> ->. by destruct (st_profile (page w)).
  - run_eff. rewrite Hu. run_eff. rewrite Hp. run_eff. rewrite Hs. run_eff.
    repeat (split; [reflexivity|]). split; [by rewrite last_snoc|].
    unfold render. cbn [st_loading st_error st_profile st_settings
      truthy_opt_string error_text]. split.
    + intros Hm. destruct (message r); [done|]. reflexivity.
    + by intros -> ->.
Qed.

(** Without a user name nothing is asked of the backend or of the host:
    the load is the same for every backend and host, ends with the error
    text ["Username is required"], which the page shows, and fires no
    toast. *)
Theorem missing_username_skips_backend
    (profiles profiles' : string -> Response Profile)
    (profile_settings profile_settings' : string -> Response RawSettings)
    (JSON_parse' : string -> ParseResult) (uuid' : nat -> string)
    (username : option string) (w : World) :
  truthy_opt_string username = false ->
  let w' := load JSON_parse uuid profiles profile_settings username w in
  w' = load JSON_parse' uuid' profiles' profile_settings' username w /\
  st_error (page w') = Some "Username is required" /\
  render (page w') = ErrorView "Username is required" /\
  toasts w' = toasts w /\
  st_profile (page w') = st_profile (page w).
Proof.
  intros Hu. destruct username as [[|c u]|]; [|done|]; by repeat split.
Qed.

End Queries.

Lemma settings_query_keyed_by_profile_id_witness :
  load Sample.JSON_parse Sample.uuid Sample.profiles
    (Sample.settings_answer (Resolved (Some Sample.only_links) None))
    (Some "alice") Sample.fresh =
  load Sample.JSON_parse Sample.uuid Sample.profiles
    (fun _ => Resolved (Some Sample.only_links) None)
    (Some "alice") Sample.fresh.
Proof.
  apply settings_query_keyed_by_profile_id.
  intros u p [= <-] [= <-]. reflexivity.
Defined.

Lemma rejected_query_is_caught_witness :
  let w' := load Sample.JSON_parse Sample.uuid Sample.profiles
              (fun _ => Rejected (ErrorInstance "Failed to fetch"))
              (Some "alice") Sample.fresh in
  st_error (page w') = Some "Failed to fetch" /\
  render (page w') = ErrorView "Failed to fetch".
Proof.
  intros w'.
  destruct (rejected_query_is_caught Sample.JSON_parse Sample.uuid
              Sample.profiles
              (fun _ => Rejected (ErrorInstance "Failed to fetch"))
              "alice" (ErrorInstance "Failed to fetch") Sample.fresh
              eq_refl
              (or_intror (ex_intro _ Sample.alice (conj eq_refl eq_refl))))
    as (Herr & _ & _ & _ & Hview & _).
  split; [exact Herr|]. apply Hview. discriminate.
Defined.

Lemma missing_username_skips_backend_witness :
  let w' := load Sample.JSON_parse Sample.uuid Sample.profiles
              (Sample.settings_answer (Resolved None None))
              (Some EmptyString) Sample.fresh in
  render (page w') = ErrorView "Username is required" /\
  navigations w' = ["/404"].
Proof.
  intros w'.
  destruct (missing_username_skips_backend Sample.JSON_parse Sample.uuid
              Sample.profiles Sample.profiles
              (Sample.settings_answer (Resolved None None))
              (Sample.settings_answer (Resolved None None))
              Sample.JSON_parse Sample.uuid
              (Some EmptyString) Sample.fresh eq_refl)
    as (_ & _ & Hview & _).
  split; [exact Hview | reflexivity].
Defined.

Lemma load_without_error_means_loaded_witness :
  let w' := load Sample.JSON_parse Sample.uuid Sample.profiles
              (Sample.settings_answer
                 (Resolved (Some Sample.only_links) None))
              (Some "alice") Sample.fresh in
  st_profile (page w') = Some Sample.alice /\
  exists v, render (page w') = ProfilePage v.
Proof.
  intros w'.
  destruct (load_without_error_means_loaded Sample.JSON_parse Sample.uuid
              Sample.profiles
              (Sample.settings_answer
                 (Resolved (Some Sample.only_links) None))
              (Some "alice") Sample.fresh eq_refl)
    as (p & row & (u & [= <-] & _ & [= <-] & _) & Hp & _ & v & Hv & _).
  split; [exact Hp | by exists v].
Defined.

Lemma failed_load_keeps_settings_and_document_witness :
  let w := with_document true (Some "var(--font-serif)") Sample.fresh in
  let w' := load Sample.JSON_parse Sample.uuid Sample.profiles
              (Sample.settings_answer (Resolved None None))
              (Some "bob") w in
  root_dark w' = true /\ root_font w' = Some "var(--font-serif)" /\
  uuid_calls w' = 0.
Proof.
  intros w w'.
  destruct (failed_load_keeps_settings_and_document Sample.JSON_parse
              Sample.uuid Sample.profiles
              (Sample.settings_answer (Resolved None None))
              (Some "bob") w ltac:(discriminate))
    as (_ & Hdark & Hfont & Hcalls).
  split; [exact Hdark|]. split; [exact Hfont | exact Hcalls].
Defined.

Lemma load_applies_dark_mode_and_font_witness :
  let w' := load Sample.JSON_parse Sample.uuid Sample.profiles
              (Sample.settings_answer
                 (Resolved (Some (Sample.row_with_background "null")) None))
              (Some "alice") Sample.fresh in
  root_dark w' = true /\ root_font w' = Some "var(--font-sans)".
Proof.
  intros w'.
  destruct (load_applies_dark_mode_and_font Sample.JSON_parse Sample.uuid
              Sample.profiles
              (Sample.settings_answer
                 (Resolved (Some (Sample.row_with_background "null")) None))
              "alice" Sample.alice (Sample.row_with_background "null")
              Sample.fresh eq_refl eq_refl eq_refl)
    as (t & f & Ht & Hdark & Hf & _ & Hfont).
  fold w' in Ht, Hdark, Hfont.
  assert (Hw : st_settings (page w') =
    Some {| links := [ {| link_id := "uuid-"; link_title := EmptyString;
                          link_url := "https://example.com";
                          link_icon := Some "link";
                          link_display := Some DisplayBoth;
                          link_photo_url := Some EmptyString |};
                       {| link_id := "uuid-i"; link_title := EmptyString;
                          link_url := EmptyString;
                          link_icon := Some "link";
                          link_display := Some DisplayBoth;
                          link_photo_url := Some EmptyString |} ];
            theme_id := "ocean"; is_dark_mode := true;
            font_style := Some "sans"; layout_type := Some "bento";
            background_style := None; favicon_url := None |})
    by (by vm_compute).
  rewrite Hw in Ht. injection Ht as <-.
  cbn [is_dark_mode font_style] in Hdark, Hf. injection Hf as <-.
  split; [exact Hdark | exact Hfont].
Defined.

Lemma load_draws_one_uuid_per_missing_id_witness :
  uuid_calls
    (load Sample.JSON_parse Sample.uuid Sample.profiles
       (Sample.settings_answer
          (Resolved (Some (Sample.row_with_background "null")) None))
       (Some "alice") Sample.fresh) = 2.
Proof.
  destruct (load_draws_one_uuid_per_missing_id Sample.JSON_parse
              Sample.uuid Sample.profiles
              (Sample.settings_answer
                 (Resolved (Some (Sample.row_with_background "null")) None))
              "alice" Sample.alice (Sample.row_with_background "null")
              Sample.fresh eq_refl eq_refl eq_refl)
    as (Harr & _).
  exact (Harr [Some Sample.example_com; None] eq_refl).
Defined.

(** ** What a load stores, and what the page then shows *)

Section Stored.

Variable JSON_parse : string -> ParseResult.
Variable uuid : nat -> string.

(** What holds of every link the callback builds. *)
Lemma processLink_normal_form (raw : option RawLink) (w w1 : World)
    (l : Link) :
  processLink uuid raw w = (Normal l, w1) ->
  formatUrl (link_url l) = link_url l /\
  (link_url l = EmptyString \/
   startsWith (link_url l) "http://" = true \/
   startsWith (link_url l) "https://" = true) /\
  (exists i, link_icon l = Some i /\ i <> EmptyString) /\
  is_Some (link_display l) /\ is_Some (link_photo_url l).
Proof.
  rewrite processLink_run. intros H. apply normal_inv in H as [<- _].
  cbn [link_url link_icon link_display link_photo_url].
  set (s := or_string (raw ≫= raw_url) EmptyString).
  assert (Hs : s = EmptyString \/
               startsWith (formatUrl s) "http://" ||
               startsWith (formatUrl s) "https://" = true).
  { destruct s as [|c s'] eqn:E; [by left|]. right.
    by apply formatUrl_protocol. }
  split; [|split; [|split]].
  - destruct Hs as [-> | Hs]; [done|]. by apply formatUrl_fixed.
  - destruct Hs as [-> | Hs]; [by left|]. right.
    by apply orb_true_iff.
  - eexists. split; [reflexivity|].
    by destruct (raw ≫= raw_icon) as [[|c i]|].
  - by split.
Qed.

(** Every link a load stores is in normal form: its url is empty or
    begins with ["http://"] or ["https://"], and formatting it again
    changes nothing; its icon is set and not empty; its display mode and
    photo url are set. *)
Theorem stored_links_are_normalized
    (profiles : string -> Response Profile)
    (profile_settings : string -> Response RawSettings)
    (u : string) (p : Profile) (row : RawSettings) (w : World) :
  truthy_string u = true ->
  profiles u = Resolved (Some p) None ->
  profile_settings (id p) = Resolved (Some row) None ->
  let w' := load JSON_parse uuid profiles profile_settings (Some u) w in
  exists t, st_settings (page w') = Some t /\
    Forall (fun l =>
      formatUrl (link_url l) = link_url l /\
      (link_url l = EmptyString \/
       startsWith (link_url l) "http://" = true \/
       startsWith (link_url l) "https://" = true) /\
      (exists i, link_icon l = Some i /\ i <> EmptyString) /\
      is_Some (link_display l) /\ is_Some (link_photo_url l)) (links t).
Proof.
  intros Hu Hp Hs w'.
  destruct (load_found JSON_parse uuid profiles profile_settings
              u p row w Hu Hp Hs)
    as (W & out & n & v & es & _ & _ & Hout & _ & Hpage & _).
  fold w' in Hpage. rewrite Hpage. cbn [st_settings].
  eexists. split; [reflexivity|].
  cbn [links set_background_style typedSettings].
  destruct (row_links row) as [|entries| | | |] eqn:E.
  2: { rewrite (processedLinks_array uuid _ _ W E) in Hout.
       destruct (mapM_processLink uuid entries W)
         as (out' & Hrun & Hlen & Hpos).
       rewrite Hrun in Hout. apply normal_inv in Hout as [-> _].
       apply Forall_lookup. intros i l Hl.
       destruct (lookup_lt_is_Some_2 entries i) as [raw Hraw].
       { rewrite <- Hlen. by eapply lookup_lt_Some. }
       destruct (Hpos i raw Hraw) as (l' & Hl' & Hrunl).
       rewrite Hl in Hl'. injection Hl' as <-.
       by eapply processLink_normal_form. }
  all: rewrite (processedLinks_other uuid row W) in Hout by (by rewrite E);
    apply normal_inv in Hout as [<- _]; constructor.
Qed.

(** A stored sub-document that parses to an override with an id other
    than ["none"] and a non-empty url is shown: the page carries it as
    background image, with the overlay and the text-shadow flag, and
    nothing is written to the console about the parse. *)
Theorem parsed_background_is_shown
    (profiles : string -> Response Profile)
    (profile_settings : string -> Response RawSettings)
    (u : string) (p : Profile) (row : RawSettings)
    (s : string) (bs : BackgroundStyle) (w : World) :
  truthy_string u = true ->
  profiles u = Resolved (Some p) None ->
  profile_settings (id p) = Resolved (Some row) None ->
  row_background_style row = Some s ->
  s <> EmptyString ->
  JSON_parse s = Parsed (Some bs) ->
  bs_id bs <> "none" ->
  bs_url bs <> EmptyString ->
  let w' := load JSON_parse uuid profiles profile_settings (Some u) w in
  last (console w') =
    Some {| level := LevelLog; text := "Settings fetch result:";
            arg := Some (ArgSettingsResult (Some row) None) |} /\
  exists v, render (page w') = ProfilePage v /\
    view_style v =
      Some {| backgroundImage := "url(" +:+ bs_url bs +:+ ")";
              backgroundSize := "cover";
              backgroundPosition := "center";
              backgroundRepeat := "no-repeat" |} /\
    view_textShadowClass v = "text-shadow" /\
    view_overlay v =
      "min-h-screen transition-all duration-300 bg-black/40 backdrop-blur-sm" /\
    view_className v = "min-h-screen transition-all duration-500 ".
Proof.
  intros Hu Hp Hs Hbg Hne Hparsed Hid Hurl w'.
  destruct (load_found JSON_parse uuid profiles profile_settings
              u p row w Hu Hp Hs)
    as (W & out & n & v & es & _ & HW & _ & Hparse & Hpage & _ & _ &
        Hconsole & _).
  fold w' in Hpage, Hconsole.
  apply truthy_string_true in Hne.
  rewrite parse_background_style_cases, Hbg, Hne, Hparsed in Hparse.
  apply normal_inv in Hparse as [Ht Hes].
  rewrite <- (after_logs_nil (after_draws n W)) in Hes at 1.
  apply after_logs_inv in Hes. subst es.
  apply (f_equal background_style) in Ht. cbn in Ht. subst v.
  rewrite Hconsole, app_nil_r, HW, Hpage.
  split; [by rewrite last_app|].
  eexists. split; [reflexivity|].
  cbn [view_style view_textShadowClass view_overlay view_className].
  assert (Htruthy : truthy (hasBackgroundImage
            (set_background_style (typedSettings row out) (Some bs))) = true).
  { unfold hasBackgroundImage. cbn [background_style set_background_style].
    apply String.eqb_neq in Hid. rewrite Hid. cbn.
    by apply truthy_string_true. }
  unfold backgroundStyle, textShadowClass, overlay_className,
    outer_className. rewrite Htruthy. by repeat split.
Qed.

(** After a load that had both rows, the page's metadata are the title of
    the loaded profile and the favicon of the settings row, passed
    through as stored. *)
Theorem metadata_after_load
    (profiles : string -> Response Profile)
    (profile_settings : string -> Response RawSettings)
    (u : string) (p : Profile) (row : RawSettings) (w : World) :
  truthy_string u = true ->
  profiles u = Resolved (Some p) None ->
  profile_settings (id p) = Resolved (Some row) None ->
  let w' := load JSON_parse uuid profiles profile_settings (Some u) w in
  pageMetadata (page w') =
    {| meta_title := pageTitle (Some p);
       meta_faviconUrl := row_favicon_url row |} /\
  (full_name p <> EmptyString ->
   meta_title (pageMetadata (page w')) = full_name p \/
   Some (meta_title (pageMetadata (page w'))) = custom_title p).
Proof.
  intros Hu Hp Hs w'.
  destruct (load_found JSON_parse uuid profiles profile_settings
              u p row w Hu Hp Hs)
    as (W & out & n & v & es & _ & _ & _ & _ & Hpage & _).
  fold w' in Hpage. rewrite Hpage. unfold pageMetadata.
  cbn [st_profile st_settings]. split; [reflexivity|].
  intros Hf. cbn [meta_title]. unfold pageTitle. cbn.
  destruct (custom_title p) as [[|c t]|]; cbn.
  - left. by destruct (full_name p).
  - by right.
  - left. by destruct (full_name p).
Qed.

End Stored.

(** ** Unmounting *)

Section Unmount.

Variable JSON_parse : string -> ParseResult.
Variable uuid : nat -> string.

Lemma mapM_processLink_document (entries : list (option RawLink))
    (d : bool) (f : option string) (w : World) :
  mapM (processLink uuid) entries (with_document d f w) =
  (fst (mapM (processLink uuid) entries w),
   with_document d f (snd (mapM (processLink uuid) entries w))).
Proof.
  revert w. induction entries as [|x entries IH]; intros w; [reflexivity|].
  cbn [mapM]. unfold mbind, Eff_bind. rewrite !processLink_run.
  change (after_draws (draws [x]) (with_document d f w))
    with (with_document d f (after_draws (draws [x]) w)).
  rewrite IH.
  by destruct (mapM (processLink uuid) entries
                 (after_draws (draws [x]) w)) as [[out| |e] w2].
Qed.

Lemma processedLinks_document (row : RawSettings) (d : bool)
    (f : option string) (w : World) :
  processedLinks uuid row (with_document d f w) =
  (fst (processedLinks uuid row w),
   with_document d f (snd (processedLinks uuid row w))).
Proof.
  unfold processedLinks.
  destruct (truthy_links (row_links row) && isArray (row_links row));
    [|reflexivity].
  destruct (row_links row); try reflexivity.
  apply mapM_processLink_document.
Qed.

(** The statements after a settings row overwrite the dark class and the
    font property without reading them. *)
Lemma load_settings_document (row : RawSettings) (d : bool)
    (f : option string) (w : World) :
  load_settings JSON_parse uuid row (with_document d f w) =
  load_settings JSON_parse uuid row w.
Proof.
  unfold load_settings. run_eff. rewrite processedLinks_document.
  destruct (processedLinks_normal uuid row w) as (out & n & ->).
  cbn [fst snd]. rewrite !parse_background_style_cases.
  destruct (row_background_style row) as [s|];
    [destruct (truthy_string s); [destruct (JSON_parse s)|]|];
    run_eff; by destruct (row_is_dark_mode row) as [[|]|].
Qed.

(** A load either overwrites the dark class and the font property (when
    it had both rows), or leaves them alone; it never reads them. *)
Lemma load_document
    (profiles : string -> Response Profile)
    (profile_settings : string -> Response RawSettings)
    (username : option string) (d : bool) (f : option string) (w : World) :
  load JSON_parse uuid profiles profile_settings username
    (with_document d f w) =
  load JSON_parse uuid profiles profile_settings username w \/
  load JSON_parse uuid profiles profile_settings username
    (with_document d f w) =
  with_document d f
    (load JSON_parse uuid profiles profile_settings username w).
Proof.
  destruct username as [[|c u]|]; [by right| |by right].
  destruct (profiles (String c u)) as [[p|] [e|] | r] eqn:Hp.
  2: destruct (profile_settings (id p)) as [[row|] [e|] | r] eqn:Hs.
  3: { left. run_eff. cbn [truthy_string]. run_eff. rewrite Hp. run_eff.
       rewrite Hs. run_eff.
       match goal with
       | |- context [load_settings _ _ _ ?A] =>
           match goal with
           | |- context [load_settings _ _ _ ?B] =>
               tryif constr_eq A B then fail
               else change A with (with_document d f B)
           end
       end.
       by rewrite load_settings_document. }
  all: right; run_eff; cbn [truthy_string]; run_eff; rewrite Hp; run_eff;
    try (rewrite Hs; run_eff); reflexivity.
Qed.

(** Unmounting after a load leaves the dark class off and the font
    property removed, and everything else as the load left it; what it
    leaves does not depend on the dark class and font property found when
    the page mounted, which the load never reads. *)
Theorem unmount_after_load
    (profiles : string -> Response Profile)
    (profile_settings : string -> Response RawSettings)
    (username : option string) (d : bool) (f : option string) (w : World) :
  let w' := load JSON_parse uuid profiles profile_settings username w in
  unmount (load JSON_parse uuid profiles profile_settings username
             (with_document d f w)) = unmount w' /\
  unmount w' = with_document false None w' /\
  unmount (unmount w') = unmount w'.
Proof.
  intros w'. split; [|by split].
  destruct (load_document profiles profile_settings username d f w)
    as [-> | ->]; reflexivity.
Qed.

(** After a load that had both rows, the edit button leads to the editor
    of the loaded profile whenever its user name is not empty. *)
Theorem edit_after_load
    (profiles : string -> Response Profile)
    (profile_settings : string -> Response RawSettings)
    (u : string) (p : Profile) (row : RawSettings) (w : World) :
  truthy_string u = true ->
  profiles u = Resolved (Some p) None ->
  profile_settings (id p) = Resolved (Some row) None ->
  username p <> EmptyString ->
  let w' := load JSON_parse uuid profiles profile_settings (Some u) w in
  let w'' := settle (handleEditProfile (page w')) w' in
  navigations w'' = (navigations w ++ ["/edit-profile/" +:+ username p])%list /\
  toasts w'' = toasts w.
Proof.
  intros Hu Hp Hs Hname w'.
  destruct (load_found JSON_parse uuid profiles profile_settings
              u p row w Hu Hp Hs)
    as (W & out & n & v & es & _ & _ & _ & _ & Hpage & Ht & Hnav & _).
  fold w' in Hpage, Ht, Hnav. cbv zeta.
  unfold handleEditProfile, settle. rewrite Hpage.
  cbn [st_profile fmap option_fmap option_map truthy_opt_string].
  apply truthy_string_true in Hname. rewrite Hname.
  cbn. by rewrite Hnav, Ht.
Qed.

End Unmount.

Lemma stored_links_are_normalized_witness :
  let w' := load Sample.JSON_parse Sample.uuid Sample.profiles
              (Sample.settings_answer
                 (Resolved (Some (Sample.row_with_background "null")) None))
              (Some "alice") Sample.fresh in
  exists t, st_settings (page w') = Some t /\
    Forall (fun l => formatUrl (link_url l) = link_url l) (links t).
Proof.
  intros w'.
  destruct (stored_links_are_normalized Sample.JSON_parse Sample.uuid
              Sample.profiles
              (Sample.settings_answer
                 (Resolved (Some (Sample.row_with_background "null")) None))
              "alice" Sample.alice (Sample.row_with_background "null")
              Sample.fresh eq_refl eq_refl eq_refl)
    as (t & Ht & Hall).
  exists t. split; [exact Ht|].
  eapply Forall_impl; [exact Hall|]. by intros l (H & _).
Defined.

Lemma parsed_background_is_shown_witness :
  let text := Sample.json_background "custom" "https://img" in
  let w' := load Sample.JSON_parse Sample.uuid Sample.profiles
              (Sample.settings_answer
                 (Resolved (Some (Sample.row_with_background text)) None))
              (Some "alice") Sample.fresh in
  exists v, render (page w') = ProfilePage v /\
    (backgroundImage <$> view_style v) = Some "url(https://img)" /\
    view_textShadowClass v = "text-shadow".
Proof.
  intros text w'.
  destruct (parsed_background_is_shown Sample.JSON_parse Sample.uuid
              Sample.profiles
              (Sample.settings_answer
                 (Resolved (Some (Sample.row_with_background text)) None))
              "alice" Sample.alice (Sample.row_with_background text)
              text {| bs_id := "custom"; bs_url := "https://img" |}
              Sample.fresh eq_refl eq_refl eq_refl eq_refl
              ltac:(discriminate) eq_refl
              ltac:(discriminate) ltac:(discriminate))
    as (_ & v & Hv & Hstyle & Hshadow & _).
  exists v. split; [exact Hv|]. split; [by rewrite Hstyle | exact Hshadow].
Defined.

Lemma metadata_after_load_witness :
  pageMetadata
    (page (load Sample.JSON_parse Sample.uuid Sample.profiles
             (Sample.settings_answer
                (Resolved (Some Sample.only_links) None))
             (Some "alice") Sample.fresh)) =
  {| meta_title := "Alice"; meta_faviconUrl := None |}.
Proof.
  destruct (metadata_after_load Sample.JSON_parse Sample.uuid
              Sample.profiles
              (Sample.settings_answer
                 (Resolved (Some Sample.only_links) None))
              "alice" Sample.alice Sample.only_links Sample.fresh
              eq_refl eq_refl eq_refl)
    as (H & _).
  exact H.
Defined.

Lemma edit_after_load_witness :
  let w' := load Sample.JSON_parse Sample.uuid Sample.profiles
              (Sample.settings_answer
                 (Resolved (Some Sample.only_links) None))
              (Some "alice") Sample.fresh in
  navigations (settle (handleEditProfile (page w')) w') =
    ["/edit-profile/alice"].
Proof.
  intros w'.
  destruct (edit_after_load Sample.JSON_parse Sample.uuid
              Sample.profiles
              (Sample.settings_answer
                 (Resolved (Some Sample.only_links) None))
              "alice" Sample.alice Sample.only_links Sample.fresh
              eq_refl eq_refl eq_refl ltac:(discriminate))
    as (H & _).
  exact H.
Defined.

Lemma theme_is_defined_witness :
  theme (Sample.settings_of None "no-such-theme") <> NoTheme /\
  theme (Sample.settings_of None "toString") <> NoTheme.
Proof.
  split; apply theme_is_defined.
Defined.
